(** * Lab1_DS: the spreadsheet cleaning pipeline

    A shallow embedding of [src/excel_a_csv.py] and
    [src/actualiza_datos_2025.py].

    Conventions.
    - A Python [str] is a [string]; each [ascii] stands for one code point
      below 256 (the Latin-1 range, enough for the Spanish labels of the
      workbooks).  [is_space] and [lower_char] follow [str.isspace] and
      [str.lower] on that range.
    - A cell of a sheet is a [pyval]: text, an int, a float, a timestamp or
      the empty cell (NaN).
    - pandas' missing marker (NaN, NaT) is [None]; a numeric column holds
      [option num], a date column [option Z] (datetime64 is a count of
      nanoseconds).  A [num] is the value of a number, a rational or an
      infinity; whether a column holds it as int64, uint64 or float64 is
      the [dtype] of the column.  Sums are the sums of numpy: modulo 2^64
      on integer columns, rounded to binary64 otherwise ([Float64]).
    - What pandas does behind a call and is not part of this repository
      ([pd.to_datetime], [pd.to_numeric], [str()] of a float or of a
      timestamp, the text [to_csv] writes for a value, [ExcelFile.parse])
      is a parameter of the development: the class [Pandas] and the record
      [ExcelFile].  [Ejemplo] gives a small instance on which the scripts
      run. *)

From Stdlib Require Import List Bool Arith ZArith QArith Lia.
From Stdlib Require Import Ascii String.
From Stdlib Require Import Sorted Permutation.
From Stdlib Require Import DecimalString.
From Stdlib Require Import SpecFloat.
Import ListNotations.

Local Close Scope Q_scope.
Local Open Scope nat_scope.
Local Open Scope string_scope.
Local Open Scope list_scope.

(** ** Python strings *)

Module PyStr.

(** [str.isspace] for a code point below 256. *)
Definition is_space (c : ascii) : bool :=
  let n := nat_of_ascii c in
  ((9 <=? n) && (n <=? 13) || (28 <=? n) && (n <=? 32)
   || (n =? 133) || (n =? 160))%nat.

(** [str.lower] for a code point below 256: A-Z, and the accented capitals
    192-222 except the multiplication sign 215. *)
Definition lower_char (c : ascii) : ascii :=
  let n := nat_of_ascii c in
  if ((65 <=? n) && (n <=? 90)
      || (192 <=? n) && (n <=? 222) && negb (n =? 215))%nat
  then ascii_of_nat (n + 32) else c.

Fixpoint lower (s : string) : string :=
  match s with
  | EmptyString => EmptyString
  | String c s' => String (lower_char c) (lower s')
  end.

Definition is_empty (s : string) : bool :=
  match s with EmptyString => true | String _ _ => false end.

Fixpoint lstrip (s : string) : string :=
  match s with
  | EmptyString => EmptyString
  | String c s' => if is_space c then lstrip s' else s
  end.

Fixpoint rstrip (s : string) : string :=
  match s with
  | EmptyString => EmptyString
  | String c s' =>
      let r := rstrip s' in
      if is_space c && is_empty r then EmptyString else String c r
  end.

(** [s.strip()] *)
Definition strip (s : string) : string := rstrip (lstrip s).

(** [s.split()]: the maximal runs of non-whitespace characters. *)
Fixpoint split (s : string) : list string :=
  match s with
  | EmptyString => []
  | String c s' =>
      if is_space c then split s'
      else match s' with
           | EmptyString => [String c EmptyString]
           | String c' _ =>
               if is_space c' then String c EmptyString :: split s'
               else match split s' with
                    | w :: ws => String c w :: ws
                    | [] => [String c EmptyString]
                    end
           end
  end.

(** [sep.join(l)] *)
Fixpoint join (sep : string) (l : list string) : string :=
  match l with
  | [] => EmptyString
  | [w] => w
  | w :: ws => w ++ sep ++ join sep ws
  end.

(** [s.startswith(p)] *)
Definition startswith (p s : string) : bool := String.prefix p s.

(** [sub in s] *)
Fixpoint contains (sub s : string) : bool :=
  startswith sub s ||
  match s with
  | EmptyString => false
  | String _ s' => contains sub s'
  end.

(** [s.replace(old, new)]: the occurrences of [old] are found from left to
    right and do not overlap.  [skip] counts the characters of a matched
    occurrence that are still to be passed over. *)
Fixpoint replace_from (old new : string) (skip : nat) (s : string) : string :=
  match s with
  | EmptyString => EmptyString
  | String c s' =>
      match skip with
      | S k => replace_from old new k s'
      | O =>
          if startswith old s
          then new ++ replace_from old new (String.length old - 1) s'
          else String c (replace_from old new 0 s')
      end
  end.

(** With an empty [old], Python puts [new] before every character and at
    the end. *)
Fixpoint intersperse (new s : string) : string :=
  match s with
  | EmptyString => new
  | String c s' => new ++ String c (intersperse new s')
  end.

Definition replace (old new s : string) : string :=
  if is_empty old then intersperse new s else replace_from old new 0 s.

End PyStr.

Export PyStr.

(** ** Numbers *)

(** The value of a number other than NaN: a rational or an infinity. *)
Inductive num : Type :=
| Fin (q : Q)
| Inf (negativo : bool).

(** The type of the elements of a numeric column. *)
Inductive dtype : Type :=
| Int64
| UInt64
| Float64.

(** ** Values, errors and the pandas interface *)

(** A cell as the spreadsheet reader returns it. *)
Inductive pyval : Type :=
| VStr (s : string)      (* text *)
| VInt (n : Z)           (* int *)
| VFloat (x : Q)         (* float other than NaN *)
| VDate (t : Z)          (* datetime *)
| VNaN.                  (* empty cell *)

(** The exceptions that end a run.  [HeaderNotFound] is the [ValueError] of
    [detecta_header], [MissingColumns] the [KeyError] of the cleaners with
    the sheet name and the list [faltantes]; [OtherError] stands for any
    exception raised by Python or pandas themselves. *)
Inductive error : Type :=
| HeaderNotFound
| MissingColumns (sheet : string) (faltantes : list string)
| OtherError.

Inductive result (A : Type) : Type :=
| Ok (a : A)
| Error (e : error).

Arguments Ok {A} a.
Arguments Error {A} e.

Definition bind {A B : Type} (m : result A) (k : A -> result B) : result B :=
  match m with
  | Ok a => k a
  | Error e => Error e
  end.

Notation "x <- m ;; k" := (bind m (fun x => k))
  (at level 61, m at next level, right associativity).

(** What the development takes from pandas without looking inside. *)
Class Pandas : Type := {
  (** [pd.to_datetime(col, errors="coerce")] at one cell of the column
      [col] (the format may be inferred from the column); [None] is NaT *)
  to_datetime : list pyval -> pyval -> option Z;
  (** [pd.to_numeric(_, errors="coerce")] on one string; [None] is NaN *)
  to_numeric : string -> option num;
  (** the dtype of the column that [pd.to_numeric(_, errors="coerce")]
      returns for a column of strings *)
  dtype_numeric : list string -> dtype;
  (** [str(x)] for a float and for a timestamp *)
  str_float : Q -> string;
  str_fecha : Z -> string;
  (** the text [to_csv] writes for a number and for a timestamp of a column
      (the format depends on the type of the column) *)
  csv_num : list (option num) -> num -> string;
  csv_fecha : list Z -> Z -> string
}.

(** A frame as [ExcelFile.parse] returns it: column labels and rows of
    cells under a fresh [RangeIndex]. *)
Record DataFrame : Type := mkDataFrame {
  columns : list pyval;
  rows : list (list pyval)
}.

(** [pd.ExcelFile]: the two ways the scripts read a sheet. *)
Record ExcelFile : Type := mkExcelFile {
  (** [xls.parse(sheet, header=None, dtype=str)] *)
  parse_raw : string -> list (list pyval);
  (** [xls.parse(sheet, header=header_row)] *)
  parse_header : string -> nat -> DataFrame
}.

(** A row of a cleaned table: the date and the value columns. *)
Record Fila : Type := mkFila {
  fecha : Z;
  valores : list (option num)
}.

(** A cleaned table: the names of the value columns (the first column,
    [fecha], is kept apart) and the rows with their index labels. *)
Record Tabla : Type := mkTabla {
  columnas : list string;
  filas : list (nat * Fila)
}.

(** ** Frame operations *)

Section Frames.

Context {A : Type}.

(** [df.reset_index(drop=True)] *)
Definition reset_index (f : list (nat * A)) : list (nat * A) :=
  combine (seq 0 (List.length f)) (map snd f).

(** A frame under a fresh [RangeIndex]. *)
Definition range_index (l : list A) : list (nat * A) :=
  combine (seq 0 (List.length l)) l.

Variable key : A -> Z.

Fixpoint insert_by (x : nat * A) (l : list (nat * A)) : list (nat * A) :=
  match l with
  | [] => [x]
  | y :: l' =>
      if (key (snd x) <=? key (snd y))%Z then x :: l
      else y :: insert_by x l'
  end.

(** [df.sort_values(key)]: ascending; rows keep their index labels.  The
    order among rows of equal key is the one of this insertion sort; the
    theorems below use only that the result is an ordered permutation. *)
Fixpoint sort_values (l : list (nat * A)) : list (nat * A) :=
  match l with
  | [] => []
  | x :: l' => insert_by x (sort_values l')
  end.

(** The keys of a frame, row by row. *)
Definition claves (l : list (nat * A)) : list Z :=
  map (fun r => key (snd r)) l.

End Frames.

(** [df[df["fecha"].notna()]] *)
Fixpoint notna_fecha {X : Type} (l : list (nat * (option Z * X)))
  : list (nat * (Z * X)) :=
  match l with
  | [] => []
  | (i, (Some d, x)) :: l' => (i, (d, x)) :: notna_fecha l'
  | (_, (None, _)) :: l' => notna_fecha l'
  end.

(** *** binary64 and the integers modulo 2^64 *)

Module Float64.

Definition prec : Z := 53.
Definition emax : Z := 1024.

(** The float nearest to [m * 2^e] (ties to even). *)
Definition redondea (m e : Z) : spec_float :=
  binary_normalize prec emax m e false.

(** The float of a number held in a column.  An integer and a rational
    whose denominator is a power of two (every float is one) are rounded
    to the nearest float, which is the number itself when it is a float;
    for any other rational the quotient of the floats of the numerator and
    of the denominator is taken. *)
Definition of_Q (q : Q) : spec_float :=
  let d := Zpos (Qden q) in
  let k := Z.log2 d in
  if (d =? 2 ^ k)%Z then redondea (Qnum q) (- k)
  else SFdiv prec emax (redondea (Qnum q) 0) (redondea d 0).

Definition of_num (x : num) : spec_float :=
  match x with
  | Fin q => of_Q q
  | Inf s => S754_infinity s
  end.

(** The value of a float, in lowest terms; NaN has none. *)
Definition to_num (f : spec_float) : option num :=
  match f with
  | S754_zero _ => Some (Fin 0)
  | S754_finite s m e =>
      let z := if s then Zneg m else Zpos m in
      Some (Fin (Qred (if (0 <=? e)%Z then inject_Z (z * 2 ^ e)
                       else Qmake z (Z.to_pos (2 ^ (- e))))))
  | S754_infinity s => Some (Inf s)
  | S754_nan => None
  end.

(** [x + y] in binary64. *)
Definition add (x y : num) : option num :=
  to_num (SFadd prec emax (of_num x) (of_num y)).

(** [x] is the value of a float, written in lowest terms. *)
Definition exacto (x : num) : Prop := to_num (of_num x) = Some x.

End Float64.

(** The integer of an element of an integer column. *)
Definition entero (x : num) : Z :=
  match x with
  | Fin q => (Qnum q / Zpos (Qden q))%Z
  | Inf _ => 0%Z
  end.

Definition wrap_int64 (z : Z) : Z := ((z + 2 ^ 63) mod 2 ^ 64 - 2 ^ 63)%Z.

Definition wrap_uint64 (z : Z) : Z := (z mod 2 ^ 64)%Z.

(** [s.fillna(z)] on one entry of a numeric column. *)
Definition fillna (z : num) (a : option num) : option num :=
  match a with
  | Some x => Some x
  | None => Some z
  end.

Definition valor_o_cero (a : option num) : num :=
  match a with
  | Some x => x
  | None => Fin 0
  end.

(** The dtype in which numpy adds a column of dtype [da] to one of dtype
    [db]: their own when they agree, float64 when they differ (int64 with
    uint64 included). *)
Definition result_type (da db : dtype) : dtype :=
  match da, db with
  | Int64, Int64 => Int64
  | UInt64, UInt64 => UInt64
  | _, _ => Float64
  end.

(** The sum of two numbers in the dtype [d]: modulo 2^64 in an integer
    dtype; in float64 both are converted and added there, and the sum of
    two opposite infinities is NaN. *)
Definition suma_num (d : dtype) (x y : num) : option num :=
  match d with
  | Int64 => Some (Fin (inject_Z (wrap_int64 (entero x + entero y))))
  | UInt64 => Some (Fin (inject_Z (wrap_uint64 (entero x + entero y))))
  | Float64 => Float64.add x y
  end.

(** [a + b] on one entry of two numeric columns of dtypes [da] and [db]:
    NaN is absorbing. *)
Definition suma (da db : dtype) (a b : option num) : option num :=
  match a, b with
  | Some x, Some y => suma_num (result_type da db) x y
  | _, _ => None
  end.

(** Position of the first column called [c]. *)
Fixpoint indice (c : string) (cols : list string) : nat :=
  match cols with
  | [] => 0
  | c' :: cols' => if String.eqb c c' then 0 else S (indice c cols')
  end.

(** [df[c]] at one row of a cleaned table. *)
Definition columna (t : Tabla) (c : string) (f : Fila) : option num :=
  nth (indice c (columnas t)) (valores f) None.

(** [df.rename(columns=d)] on the value columns. *)
Fixpoint busca (d : list (string * string)) (c : string) : string :=
  match d with
  | [] => c
  | (k, v) :: d' => if String.eqb c k then v else busca d' c
  end.

Definition rename (d : list (string * string)) (t : Tabla) : Tabla :=
  mkTabla (map (busca d) (columnas t)) (filas t).

(** [str(n)] for an int: its decimal digits. *)
Definition str_int (n : Z) : string := NilZero.string_of_int (Z.to_int n).

(** ** Utilidades (the same text in both scripts) *)

Definition nl : string := String (ascii_of_nat 10) EmptyString.

(** [normaliza_col]: a label that is not a [str] is returned as it is. *)
Definition normaliza_str (col : string) : string :=
  let col := replace nl " " col in
  let col := join " " (split (strip col)) in
  lower col.

Definition normaliza_col (col : pyval) : pyval :=
  match col with
  | VStr s => VStr (normaliza_str s)
  | _ => col
  end.

Section Pipeline.

Context {pandas : Pandas}.

(** [.astype(str)] on one cell. *)
Definition astype_str (v : pyval) : string :=
  match v with
  | VStr s => s
  | VInt n => str_int n
  | VFloat x => str_float x
  | VDate t => str_fecha t
  | VNaN => "nan"
  end.

(** One cell of [row.astype(str).str.strip().str.lower().eq("fecha")]. *)
Definition es_fecha (v : pyval) : bool :=
  String.eqb (lower (strip (astype_str v))) "fecha".

(** The loop of [detecta_header], row [i] being the next one. *)
Fixpoint detecta_header_desde (i : nat) (df : list (list pyval)) : result nat :=
  match df with
  | [] => Error HeaderNotFound
  | row :: df' =>
      if existsb es_fecha row then Ok i else detecta_header_desde (S i) df'
  end.

Definition detecta_header (df : list (list pyval)) : result nat :=
  detecta_header_desde 0 df.

(** A row with a cell whose trimmed, lower-cased text is "fecha". *)
Definition fila_con_fecha (row : list pyval) : Prop :=
  exists v, In v row /\ lower (strip (astype_str v)) = "fecha".

(** ** The steps shared by the two cleaners *)

(** [c == label] for a string [c] and a column label. *)
Definition es_etiqueta (c : string) (label : pyval) : bool :=
  match label with
  | VStr s => String.eqb c s
  | _ => false
  end.

(** [c in df.columns] *)
Definition en_columnas (c : string) (cols : list pyval) : bool :=
  existsb (es_etiqueta c) cols.

(** [[c for c in requeridas if c not in df.columns]] *)
Definition faltantes (requeridas : list string) (cols : list pyval)
  : list string :=
  filter (fun c => negb (en_columnas c cols)) requeridas.

Fixpoint posiciones_desde (i : nat) (c : string) (cols : list pyval)
  : list nat :=
  match cols with
  | [] => []
  | l :: cols' =>
      if es_etiqueta c l then i :: posiciones_desde (S i) c cols'
      else posiciones_desde (S i) c cols'
  end.

Definition posiciones (c : string) (cols : list pyval) : list nat :=
  posiciones_desde 0 c cols.

(** The cells of one row under the required labels, in their order. *)
Definition proyecta (requeridas : list string) (cols : list pyval)
  (r : list pyval) : list pyval :=
  map (fun c => nth (hd 0 (posiciones c cols)) r VNaN) requeridas.

(** [df[requeridas].copy()], once no label is missing.  When two columns
    carry a required label, [df[c]] is a frame and not a column, and the
    statements that follow ([pd.to_datetime], [.str]) raise. *)
Definition selecciona (requeridas : list string) (df : DataFrame)
  : result (list (list pyval)) :=
  if forallb (fun c => Nat.eqb (List.length (posiciones c (columns df))) 1)
       requeridas
  then Ok (map (proyecta requeridas (columns df)) (rows df))
  else Error OtherError.

(** The chain [.astype(str).str.replace(",", "").str.replace(" ", "")
    .str.replace("--", "")] followed by [pd.to_numeric]. *)
Definition limpia_texto (s : string) : string :=
  replace "--" "" (replace " " "" (replace "," "" s)).

Definition limpia_valor (v : pyval) : option num :=
  to_numeric (limpia_texto (astype_str v)).

(** From "Convertir fecha" to the end of the numeric loop: lines 85-102 of
    [excel_a_csv.py], 50-62 of [actualiza_datos_2025.py]. *)
Definition limpia_filas (sel : list (list pyval)) : list (nat * Fila) :=
  let df := range_index sel in
  let col := map (hd VNaN) sel in
  let df := map (fun ir => (fst ir, (to_datetime col (hd VNaN (snd ir)),
                                     tl (snd ir)))) df in
  let df := notna_fecha df in
  let df := reset_index (sort_values fst df) in
  map (fun ir => (fst ir, mkFila (fst (snd ir))
                            (map limpia_valor (snd (snd ir))))) df.

(** The frame of [limpia_filas] before its numeric loop: the rows with a
    date, in the order of their dates, under a fresh index. *)
Definition filas_fechadas (sel : list (list pyval))
  : list (nat * (Z * list pyval)) :=
  let df := range_index sel in
  let col := map (hd VNaN) sel in
  let df := map (fun ir => (fst ir, (to_datetime col (hd VNaN (snd ir)),
                                     tl (snd ir)))) df in
  let df := notna_fecha df in
  reset_index (sort_values fst df).

(** The column of strings that the numeric loop hands to [pd.to_numeric]
    for the [j]-th value column, and the dtype of what comes back. *)
Definition textos_columna (j : nat) (sel : list (list pyval))
  : list string :=
  map (fun ir => limpia_texto (astype_str (nth j (snd (snd ir)) VNaN)))
    (filas_fechadas sel).

Definition dtype_columna (j : nat) (sel : list (list pyval)) : dtype :=
  dtype_numeric (textos_columna j sel).

(** ** Reshaping, joining and exporting *)



Definition misma_fecha (d : Z) (r : nat * Fila) : bool :=
  (fecha (snd r) =? d)%Z.

Definition en_lista (c : string) (l : list string) : bool :=
  existsb (String.eqb c) l.

(** The rows of an outer join that come from a row [a] of the left side:
    one for each right row of the same date, or [a] alone, filled with
    [nan_r]. *)
Definition une_izquierda (nan_r : list (option num))
  (rs : list (nat * Fila))
  (a : nat * Fila) : list Fila :=
  match filter (misma_fecha (fecha (snd a))) rs with
  | [] => [mkFila (fecha (snd a)) (valores (snd a) ++ nan_r)]
  | bs => map (fun b => mkFila (fecha (snd a))
                          (valores (snd a) ++ valores (snd b))) bs
  end.

(** The row that comes from a right row [b] without a left partner. *)
Definition solo_derecha (nan_l : list (option num))
  (ls : list (nat * Fila))
  (b : nat * Fila) : list Fila :=
  if existsb (misma_fecha (fecha (snd b))) ls then []
  else [mkFila (fecha (snd b)) (nan_l ++ valores (snd b))].

Definition une (l r : Tabla) : list Fila :=
  flat_map (une_izquierda (repeat None (List.length (columnas r))) (filas r))
    (filas l)
  ++ flat_map (solo_derecha (repeat None (List.length (columnas l)))
                 (filas l))
       (filas r).

(** [pd.merge(l, r, on="fecha", how="outer")]: every pair of rows of equal
    date, a row of one side without a partner filled with NaN on the other
    side, the keys in ascending order, under a fresh index.  A name carried
    by both sides gets the suffix [_x] or [_y]. *)
Definition merge_outer (l r : Tabla) : Tabla :=
  mkTabla
    (map (fun c => if en_lista c (columnas r) then (c ++ "_x")%string else c)
       (columnas l)
     ++ map (fun c => if en_lista c (columnas l) then (c ++ "_y")%string
                      else c)
          (columnas r))
    (reset_index (sort_values fecha (range_index (une l r)))).

(** [df.sort_values("fecha")] on a table. *)
Definition sort_fecha (t : Tabla) : Tabla :=
  mkTabla (columnas t) (sort_values fecha (filas t)).

Definition dq : ascii := ascii_of_nat 34.

Fixpoint tiene (p : ascii -> bool) (s : string) : bool :=
  match s with
  | EmptyString => false
  | String c s' => p c || tiene p s'
  end.

(** The characters that make the writer quote a field. *)
Definition especial (c : ascii) : bool :=
  Ascii.eqb c ","%char || Ascii.eqb c dq
  || Ascii.eqb c (ascii_of_nat 10) || Ascii.eqb c (ascii_of_nat 13).

Fixpoint dobla (s : string) : string :=
  match s with
  | EmptyString => EmptyString
  | String c s' =>
      if Ascii.eqb c dq then String dq (String dq (dobla s'))
      else String c (dobla s')
  end.

(** One field, quoted only when it has to be. *)
Definition campo (s : string) : string :=
  if tiene especial s then String dq (dobla s ++ String dq EmptyString)
  else s.

Definition linea (campos : list string) : string :=
  join "," (map campo campos) ++ nl.

(** A missing value is written as an empty field. *)
Definition csv_valor (col : list (option num)) (a : option num)
  : string :=
  match a with
  | Some x => csv_num col x
  | None => EmptyString
  end.

(** The [j]-th value column of a table. *)
Definition columna_n (t : Tabla) (j : nat) : list (option num) :=
  map (fun r => nth j (valores (snd r)) None) (filas t).

(** The fields of one row of [t]. *)
Definition csv_fila (t : Tabla) (f : Fila) : list string :=
  csv_fecha (map (fun r => fecha (snd r)) (filas t)) (fecha f)
  :: map (fun jx => csv_valor (columna_n t (fst jx)) (snd jx))
       (range_index (valores f)).

(** The text written by [df.to_csv(path, index=False)]: the header line
    and one line per row, in the order of the frame, each ended by a line
    feed. *)
Definition to_csv (t : Tabla) : string :=
  join "" (linea ("fecha" :: columnas t)
           :: map (fun r => linea (csv_fila t (snd r))) (filas t)).

End Pipeline.

(** The date column of the selected rows. *)
Definition col_fecha (sel : list (list pyval)) : list pyval :=
  map (hd VNaN) sel.

(** What the cleaning steps make of one selected row, [col] being the date
    column: nothing when its date cell does not parse, else the date and
    the cleaned values. *)
Definition conserva {pandas : Pandas} (col : list pyval) (r : list pyval)
  : list Fila :=
  match to_datetime col (hd VNaN r) with
  | Some d => [mkFila d (map limpia_valor (tl r))]
  | None => []
  end.

(** The dates of the selected rows whose date cell parses. *)
Definition fechas_validas {pandas : Pandas} (sel : list (list pyval))
  : list Z :=
  flat_map (fun r => match to_datetime (col_fecha sel) (hd VNaN r) with
                     | Some d => [d]
                     | None => []
                     end) sel.

(** The dates of a table, row by row. *)
Definition fechas (t : Tabla) : list Z :=
  map (fun r => fecha (snd r)) (filas t).

(** ** excel_a_csv.py *)

Module ExcelACsv.

Section Script.

Context {pandas : Pandas}.

Definition requeridas : list string :=
  ["fecha"; "gasolina regular"; "gasolina superior"; "diesel alto azufre"].

(** The branches of the defensive renaming, for one label. *)
Definition renombre (c : string) : string :=
  if startswith "gasolina super" c then "gasolina superior"
  else if startswith "gasolina s" c && contains "rior" c
       then "gasolina superior"
  else if startswith "gasolina regular" c then "gasolina regular"
  else if startswith "diesel alto" c then "diesel alto azufre"
  else c.

Definition es_str (v : pyval) : bool :=
  match v with VStr _ => true | _ => false end.

(** The loop that fills [renmap] and [df.rename(columns=renmap)].  On a
    label that is not a [str], [c_norm.startswith] raises. *)
Definition renombra (cols : list pyval) : result (list pyval) :=
  if forallb es_str cols
  then Ok (map (fun l => match l with
                         | VStr c => VStr (renombre c)
                         | _ => l
                         end) cols)
  else Error OtherError.

Definition carga_y_limpia_hoja (xls : ExcelFile) (sheet : string)
  : result Tabla :=
  let raw := parse_raw xls sheet in
  header_row <- detecta_header raw ;;
  let df := parse_header xls sheet header_row in
  cols <- renombra (map normaliza_col (columns df)) ;;
  let df := mkDataFrame cols (rows df) in
  match faltantes requeridas (columns df) with
  | (_ :: _) as falt => Error (MissingColumns sheet falt)
  | [] =>
      sel <- selecciona requeridas df ;;
      Ok (mkTabla (tl requeridas) (limpia_filas sel))
  end.


(** The merged table of [main]. *)
Definition combined (imp con : Tabla) : Tabla :=
  sort_fecha
    (merge_outer
       (rename [("gasolina regular", "Regular_Imp");
                ("gasolina superior", "Superior_Imp");
                ("diesel alto azufre", "Diesel_Imp")] imp)
       (rename [("gasolina regular", "Regular_Con");
                ("gasolina superior", "Superior_Con");
                ("diesel alto azufre", "Diesel_Con")] con)).

(** [main]: the files written under [outdir], by name, with their text. *)
Definition main (xls : ExcelFile) : result (list (string * string)) :=
  imp <- carga_y_limpia_hoja xls "IMPORTACION" ;;
  con <- carga_y_limpia_hoja xls "CONSUMO" ;;
  Ok [("importacion_combustibles.csv", to_csv imp);
      ("consumo_combustibles.csv", to_csv con);
      ("Series_de_Tiempo_Combustibles.csv", to_csv (combined imp con))].

End Script.

End ExcelACsv.

(** ** actualiza_datos_2025.py *)

Module Actualiza2025.

Section Script.

Context {pandas : Pandas}.

Definition requeridas : list string :=
  ["fecha"; "gasolina regular"; "gasolina superior";
   "diesel bajo azufre"; "diesel ultra bajo azufre"].

(** "Combinar diesel bajo + ultra bajo azufre", one row; [da] and [db]
    are the dtypes of the two columns.  [fillna(0)] keeps the dtype of its
    column. *)
Definition diesel_total (da db : dtype) (df : Tabla) (f : Fila)
  : option num :=
  suma da db
    (fillna (Fin 0) (columna df "diesel bajo azufre" f))
    (fillna (Fin 0) (columna df "diesel ultra bajo azufre" f)).

(** Lines 64-71: the new column, the selection of four columns and the
    final names. *)
Definition combina_diesel (da db : dtype) (df : Tabla) : Tabla :=
  rename [("gasolina regular", "Regular_Imp");
          ("gasolina superior", "Superior_Imp");
          ("diesel total", "Diesel_Imp")]
    (mkTabla ["gasolina regular"; "gasolina superior"; "diesel total"]
       (map (fun r =>
               (fst r,
                mkFila (fecha (snd r))
                  [columna df "gasolina regular" (snd r);
                   columna df "gasolina superior" (snd r);
                   diesel_total da db df (snd r)]))
          (filas df))).

Definition carga_y_limpia_importacion (xls : ExcelFile) (sheet : string)
  : result Tabla :=
  let raw := parse_raw xls sheet in
  header_row <- detecta_header raw ;;
  let df := parse_header xls sheet header_row in
  let df := mkDataFrame (map normaliza_col (columns df)) (rows df) in
  match faltantes requeridas (columns df) with
  | (_ :: _) as falt => Error (MissingColumns sheet falt)
  | [] =>
      sel <- selecciona requeridas df ;;
      Ok (combina_diesel (dtype_columna 2 sel) (dtype_columna 3 sel)
            (mkTabla (tl requeridas) (limpia_filas sel)))
  end.

Definition main (xls : ExcelFile) : result (list (string * string)) :=
  df <- carga_y_limpia_importacion xls "IMPORTACION" ;;
  Ok [("importacion_2025_actualizado.csv", to_csv df)].

End Script.

End Actualiza2025.

(** ** The reader of the round trip *)

(** [a] is the character [c]. *)
Definition es_car (c a : ascii) : bool := Ascii.eqb a c.

(** The pieces of [s] between the occurrences of [c]. *)
Fixpoint split_on (c : ascii) (s : string) : list string :=
  match s with
  | EmptyString => [EmptyString]
  | String a s' =>
      if Ascii.eqb a c then EmptyString :: split_on c s'
      else match split_on c s' with
           | w :: ws => String a w :: ws
           | [] => [String a EmptyString]
           end
  end.

Fixpoint traverse {A B : Type} (f : A -> option B) (l : list A)
  : option (list B) :=
  match l with
  | [] => Some []
  | x :: l' =>
      match f x, traverse f l' with
      | Some y, Some ys => Some (y :: ys)
      | _, _ => None
      end
  end.

Section Lector.

(** How the reader parses the text of a date and of a number. *)
Variable lee_fecha : string -> option Z.
Variable lee_num : string -> option num.

(** An empty field is a missing value. *)
Definition lee_valor (s : string) : option (option num) :=
  if is_empty s then Some None else option_map Some (lee_num s).

Definition lee_fila (l : string) : option Fila :=
  match split_on ","%char l with
  | [] => None
  | d :: vs =>
      match lee_fecha d, traverse lee_valor vs with
      | Some t, Some xs => Some (mkFila t xs)
      | _, _ => None
      end
  end.

(** Modelled from the spec: the re-parser of the round-trip property of
    section 8, which the repository does not contain.  It reads the
    comma-delimited text line by line: the first line is the header, every
    other line a date followed by the values, an empty field being a
    missing value; the text must end with a line terminator. *)
Definition lee_csv (s : string) : option (list string * list Fila) :=
  match rev (split_on (ascii_of_nat 10) s) with
  | EmptyString :: rl =>
      match rev rl with
      | [] => None
      | h :: ls =>
          option_map (fun fs => (split_on ","%char h, fs))
            (traverse lee_fila ls)
      end
  | _ => None
  end.

(** The conditions under which the text that [to_csv] writes for a row
    reads back as the row: the text of its date and of each of its numbers
    needs no quoting and is read back as that date and that number, and
    the text of a number is not empty. *)
Definition valor_fiel {pandas : Pandas} (col : list (option num))
  (a : option num) : Prop :=
  match a with
  | Some x => tiene especial (csv_num col x) = false
              /\ csv_num col x <> EmptyString
              /\ lee_num (csv_num col x) = Some x
  | None => True
  end.

Definition fila_fiel {pandas : Pandas} (t : Tabla) (f : Fila) : Prop :=
  let col := map (fun r => fecha (snd r)) (filas t) in
  tiene especial (csv_fecha col (fecha f)) = false
  /\ lee_fecha (csv_fecha col (fecha f)) = Some (fecha f)
  /\ Forall (fun jx => valor_fiel (columna_n t (fst jx)) (snd jx))
       (range_index (valores f)).

End Lector.

(** ** An instance to run the pipeline on examples

    Numbers and timestamps are written as decimal integers; a cell is a
    date only when the reader returned a timestamp for it. *)

Module Ejemplo.

Definition texto_Z (z : Z) : string := str_int z.

Definition lee_Z (s : string) : option Z :=
  option_map Z.of_int (NilZero.int_of_string s).

Definition texto_Q (x : Q) : string :=
  match Qden x with
  | xH => texto_Z (Qnum x)
  | d => (texto_Z (Qnum x) ++ "/" ++ texto_Z (Zpos d))%string
  end.

Definition texto_num (x : num) : string :=
  match x with
  | Fin q => texto_Q q
  | Inf false => "inf"
  | Inf true => "-inf"
  end.

Definition lee_Q (s : string) : option num :=
  option_map (fun z => Fin (inject_Z z)) (lee_Z s).

Definition en_int64 (z : Z) : bool :=
  ((- 2 ^ 63 <=? z) && (z <? 2 ^ 63))%Z.

Definition en_uint64 (z : Z) : bool :=
  ((0 <=? z) && (z <? 2 ^ 64))%Z.

(** A column of integers is int64 when they all fit, uint64 when they fit
    there; a column with anything else, NaN included, is float64. *)
Definition dtype_de (col : list string) : dtype :=
  match traverse lee_Z col with
  | Some zs =>
      if forallb en_int64 zs then Int64
      else if forallb en_uint64 zs then UInt64
      else Float64
  | None => Float64
  end.

Definition pandas : Pandas := {|
  to_datetime := fun _ v => match v with VDate t => Some t | _ => None end;
  to_numeric := lee_Q;
  dtype_numeric := dtype_de;
  str_float := texto_Q;
  str_fecha := texto_Z;
  csv_num := fun _ x => texto_num x;
  csv_fecha := fun _ t => texto_Z t
|}.

(** A workbook whose two sheets hold the same grid [g]: the header-aware
    parse takes row [i] as the labels and the rows below it as the data. *)
Definition libro (g : list (list pyval)) : ExcelFile := {|
  parse_raw := fun _ => g;
  parse_header := fun _ i => mkDataFrame (nth i g []) (skipn (S i) g)
|}.

End Ejemplo.

(** ** Words *)

(** A word: not empty and free of whitespace. *)
Definition palabra (w : string) : Prop :=
  w <> EmptyString /\ tiene is_space w = false.

(** [s] begins with a character of a word. *)
Definition empieza_palabra (s : string) : bool :=
  match s with
  | EmptyString => false
  | String c _ => negb (is_space c)
  end.

(** ** Example sheets and tables *)

(** A sheet with a banner row and no diesel column. *)
Definition hoja_sin_diesel : list (list pyval) :=
  [[VStr "Importaciones"; VNaN; VNaN];
   [VStr "Fecha"; VStr "Gasolina Regular"; VStr "Gasolina Superior"];
   [VDate 1; VInt 10; VInt 20]].

(** A sheet with a banner, a totals row without date, a value "--" and
    values with separators. *)
Definition hoja_ejemplo : list (list pyval) :=
  [[VStr "Importaciones"; VNaN; VNaN; VNaN];
   [VStr " Fecha "; VStr "Gasolina Regular"; VStr "Gasolina Superior 95";
    VStr "DIESEL ALTO  AZUFRE"];
   [VDate 30; VStr "1,2 3"; VStr "--"; VInt 5];
   [VStr "Total"; VInt 7; VInt 7; VInt 7];
   [VDate 10; VStr "1--2"; VStr "x"; VNaN];
   [VDate 20; VStr "4"; VStr "5"; VStr "6"]].

(** A sheet in which two rows carry the date 20. *)
Definition hoja_repetida : list (list pyval) :=
  [[VStr "Fecha"; VStr "Gasolina Regular"; VStr "Gasolina Superior";
    VStr "Diesel alto azufre"];
   [VDate 20; VInt 1; VInt 2; VInt 3];
   [VDate 10; VInt 4; VInt 5; VInt 6];
   [VDate 20; VInt 7; VInt 8; VInt 9]].



(** The table that the cleaner returns for [hoja_ejemplo]. *)
Definition tabla_ejemplo : Tabla :=
  mkTabla (tl ExcelACsv.requeridas)
    [(0, mkFila 10 [Some (Fin 12); None; None]);
     (1, mkFila 20 [Some (Fin 4); Some (Fin 5); Some (Fin 6)]);
     (2, mkFila 30 [Some (Fin 123); None; Some (Fin 5)])].

(** A sheet of the 2025 workbook: the diesel pairs (5, "--"), (empty,
    empty) and (3, 2). *)
Definition hoja_2025 : list (list pyval) :=
  [[VStr "Fecha"; VStr "Gasolina regular"; VStr "Gasolina superior";
    VStr "Diesel bajo azufre"; VStr "Diesel ultra bajo azufre"];
   [VDate 1; VInt 1; VInt 1; VInt 5; VStr "--"];
   [VDate 2; VInt 1; VInt 1; VNaN; VNaN];
   [VDate 3; VInt 1; VInt 1; VInt 3; VInt 2]].

(** A sheet of the 2025 workbook with one row: a low-sulfur diesel of
    2^53 + 1 barrels, held as text, and no ultra-low-sulfur diesel. *)
Definition hoja_2025_grande : list (list pyval) :=
  [[VStr "Fecha"; VStr "Gasolina regular"; VStr "Gasolina superior";
    VStr "Diesel bajo azufre"; VStr "Diesel ultra bajo azufre"];
   [VDate 1; VInt 1; VInt 1; VStr "9007199254740993"; VStr "--"]].

(** A sheet whose header row holds a year as a number. *)
Definition hoja_con_anio : list (list pyval) :=
  [[VStr "Fecha"; VStr "Gasolina Regular"; VStr "Gasolina Superior";
    VStr "Diesel alto azufre"; VInt 2024];
   [VDate 1; VInt 1; VInt 2; VInt 3; VInt 4]].

(** A sheet without diesel column whose header row holds a year as a
    number. *)
Definition hoja_anio_sin_diesel : list (list pyval) :=
  [[VStr "Fecha"; VStr "Gasolina Regular"; VStr "Gasolina Superior";
    VInt 2024];
   [VDate 1; VInt 1; VInt 2; VInt 3]].

(** A sheet in which two columns are renamed to "gasolina superior". *)
Definition hoja_dos_superior : list (list pyval) :=
  [[VStr "Fecha"; VStr "Gasolina Regular"; VStr "Gasolina Superior";
    VStr "Gasolina Super 95"; VStr "Diesel alto azufre"];
   [VDate 1; VInt 1; VInt 2; VInt 3; VInt 4]].

(** A sheet with its header and no row with a date. *)
Definition hoja_sin_fechas : list (list pyval) :=
  [[VStr "Fecha"; VStr "Gasolina Regular"; VStr "Gasolina Superior";
    VStr "Diesel alto azufre"];
   [VStr "Fuente: MEM"; VNaN; VNaN; VNaN];
   [VNaN; VInt 1; VInt 2; VInt 3]].

(** * Properties *)

(** ** Facts about Python strings *)

Ltac each_char c :=
  destruct c as [[] [] [] [] [] [] [] []]; try reflexivity; try discriminate.

Lemma is_space_lower_char c : is_space (lower_char c) = is_space c.
Proof. each_char c. Qed.

Lemma lower_char_idem c : lower_char (lower_char c) = lower_char c.
Proof. each_char c. Qed.

Lemma lower_idem s : lower (lower s) = lower s.
Proof.
  induction s as [|c s IH]; simpl; [reflexivity|].
  now rewrite lower_char_idem, IH.
Qed.

Lemma lower_app s t : lower (s ++ t) = (lower s ++ lower t)%string.
Proof. induction s as [|c s IH]; simpl; [reflexivity | now rewrite IH]. Qed.

Lemma tiene_app p s t : tiene p (s ++ t) = tiene p s || tiene p t.
Proof.
  induction s as [|c s IH]; simpl; [reflexivity|].
  now rewrite IH, orb_assoc.
Qed.

Lemma tiene_space_lower s : tiene is_space (lower s) = tiene is_space s.
Proof.
  induction s as [|c s IH]; simpl; [reflexivity|].
  now rewrite is_space_lower_char, IH.
Qed.

Lemma palabra_cons c w :
  is_space c = false -> tiene is_space w = false -> palabra (String c w).
Proof. intros Hc Hw; split; [discriminate | simpl; now rewrite Hc, Hw]. Qed.

Lemma palabra_inv w :
  palabra w ->
  exists c u, w = String c u /\ is_space c = false /\ tiene is_space u = false.
Proof.
  intros [Hne Hw]. destruct w as [|c u]; [congruence|].
  simpl in Hw. apply orb_false_iff in Hw. now exists c, u.
Qed.

Lemma palabra_lower w : palabra w -> palabra (lower w).
Proof.
  intros [Hne Hw]; split.
  - destruct w; [congruence | discriminate].
  - now rewrite tiene_space_lower.
Qed.

Lemma split_palabras s : Forall palabra (split s).
Proof.
  induction s as [|c s IH]; simpl; [constructor|].
  destruct (is_space c) eqn:Hc; [exact IH|].
  destruct s as [|c' s'].
  - repeat constructor; [discriminate | simpl; now rewrite Hc].
  - destruct (is_space c') eqn:Hc'.
    + constructor; [now apply palabra_cons | exact IH].
    + destruct (split (String c' s')) as [|w ws].
      * repeat constructor; [discriminate | simpl; now rewrite Hc].
      * inversion IH as [|? ? [_ Hw] Hws]; subst.
        constructor; [now apply palabra_cons | exact Hws].
Qed.

Lemma split_una c u :
  is_space c = false -> tiene is_space u = false ->
  split (String c u) = [String c u].
Proof.
  revert c; induction u as [|b u IH]; intros c Hc Hu; simpl.
  - now rewrite Hc.
  - simpl in Hu. apply orb_false_iff in Hu as [Hb Hu].
    rewrite Hc, Hb. specialize (IH b Hb Hu). simpl in IH.
    rewrite Hb in IH. now rewrite IH.
Qed.

Lemma split_palabra_espacio c u b r :
  is_space c = false -> tiene is_space u = false -> is_space b = true ->
  split (String c (u ++ String b r)) = String c u :: split r.
Proof.
  revert c; induction u as [|a u IH]; intros c Hc Hu Hb.
  - simpl. now rewrite Hc, Hb.
  - simpl in Hu. apply orb_false_iff in Hu as [Ha Hu].
    specialize (IH a Ha Hu Hb).
    change (split (String c (String a u ++ String b r)))
      with (if is_space c then split (String a (u ++ String b r))
            else if is_space a
                 then String c EmptyString :: split (String a (u ++ String b r))
                 else match split (String a (u ++ String b r)) with
                      | w :: ws => String c w :: ws
                      | [] => [String c EmptyString]
                      end).
    now rewrite Hc, Ha, IH.
Qed.

Lemma split_join ws : Forall palabra ws -> split (join " " ws) = ws.
Proof.
  induction 1 as [|w ws Hw Hws IH]; [reflexivity|].
  destruct (palabra_inv w Hw) as (c & u & -> & Hc & Hu).
  destruct ws as [|w' ws'].
  - now apply split_una.
  - change (join " " (String c u :: w' :: ws'))
      with (String c (u ++ String " " (join " " (w' :: ws')))).
    rewrite split_palabra_espacio by (assumption || reflexivity).
    now rewrite IH.
Qed.

Lemma lower_join ws : lower (join " " ws) = join " " (map lower ws).
Proof.
  induction ws as [|w ws IH]; [reflexivity|].
  destruct ws as [|w' ws']; [reflexivity|].
  change (join " " (w :: w' :: ws'))
    with (w ++ String " " (join " " (w' :: ws')))%string.
  rewrite lower_app.
  change (lower (String " " (join " " (w' :: ws'))))
    with (String " " (lower (join " " (w' :: ws')))).
  now rewrite IH.
Qed.

Lemma tiene_weaken (p q : ascii -> bool) s :
  (forall a, q a = true -> p a = true) ->
  tiene p s = false -> tiene q s = false.
Proof.
  intros Hpq. induction s as [|c s IH]; simpl; [reflexivity|].
  intros H. apply orb_false_iff in H as [Hc Hs].
  rewrite (IH Hs), orb_false_r.
  destruct (q c) eqn:Hq; [|reflexivity].
  apply Hpq in Hq. congruence.
Qed.

Lemma tiene_join p ws :
  p " "%char = false -> Forall (fun w => tiene p w = false) ws ->
  tiene p (join " " ws) = false.
Proof.
  intros Hsp. induction 1 as [|w ws Hw Hws IH]; [reflexivity|].
  destruct ws as [|w' ws']; [exact Hw|].
  change (join " " (w :: w' :: ws'))
    with (w ++ String " " (join " " (w' :: ws')))%string.
  rewrite tiene_app, Hw.
  change (tiene p (String " " (join " " (w' :: ws'))))
    with (p " "%char || tiene p (join " " (w' :: ws'))).
  now rewrite Hsp, IH.
Qed.

Lemma startswith_vacio s : startswith EmptyString s = true.
Proof. now destruct s. Qed.

Lemma startswith_cons a p b s :
  startswith (String a p) (String b s) = Ascii.eqb a b && startswith p s.
Proof.
  unfold startswith; cbn [prefix].
  destruct (ascii_dec a b) as [->|Hne].
  - now rewrite Ascii.eqb_refl.
  - apply Ascii.eqb_neq in Hne. now rewrite Hne.
Qed.

Lemma startswith_char c a s :
  startswith (String c EmptyString) (String a s) = Ascii.eqb c a.
Proof. now rewrite startswith_cons, startswith_vacio, andb_true_r. Qed.

(** Replacing a character that does not occur changes nothing. *)
Lemma replace_char_ausente c new s :
  tiene (Ascii.eqb c) s = false -> replace (String c EmptyString) new s = s.
Proof.
  unfold replace; simpl is_empty; cbv iota.
  induction s as [|a s IH]; [reflexivity|].
  intros H. simpl in H. apply orb_false_iff in H as [Ha Hs].
  cbn [replace_from]. rewrite startswith_char, Ha.
  now rewrite (IH Hs).
Qed.

Lemma rstrip_sin_espacios u : tiene is_space u = false -> rstrip u = u.
Proof.
  induction u as [|c u IH]; [reflexivity|].
  simpl. intros H. apply orb_false_iff in H as [Hc Hu].
  now rewrite Hc, (IH Hu).
Qed.

Lemma rstrip_app s t :
  t <> EmptyString -> rstrip t = t -> rstrip (s ++ t) = (s ++ t)%string.
Proof.
  intros Hne Ht. induction s as [|c s IH]; [exact Ht|].
  simpl. rewrite IH.
  destruct (s ++ t)%string eqn:E.
  - destruct s; simpl in E; [congruence | discriminate].
  - now rewrite andb_false_r.
Qed.

Lemma join_no_vacio w ws : palabra w -> join " " (w :: ws) <> EmptyString.
Proof.
  intros Hw. destruct (palabra_inv w Hw) as (c & u & -> & _).
  destruct ws; discriminate.
Qed.

Lemma rstrip_join ws : Forall palabra ws -> rstrip (join " " ws) = join " " ws.
Proof.
  induction 1 as [|w ws Hw Hws IH]; [reflexivity|].
  destruct ws as [|w' ws'].
  - apply rstrip_sin_espacios, Hw.
  - change (join " " (w :: w' :: ws'))
      with (w ++ String " " (join " " (w' :: ws')))%string.
    apply rstrip_app; [discriminate|].
    cbn [rstrip]. rewrite IH.
    inversion Hws; subst.
    destruct (join " " (w' :: ws')) eqn:E; [|reflexivity].
    now apply join_no_vacio in E.
Qed.

Lemma lstrip_join ws : Forall palabra ws -> lstrip (join " " ws) = join " " ws.
Proof.
  intros H. destruct H as [|w ws Hw Hws]; [reflexivity|].
  destruct (palabra_inv w Hw) as (c & u & -> & Hc & _).
  destruct ws; simpl; now rewrite Hc.
Qed.

Lemma strip_join ws : Forall palabra ws -> strip (join " " ws) = join " " ws.
Proof.
  intros H. unfold strip. rewrite lstrip_join by exact H.
  now apply rstrip_join.
Qed.

(** The shape of a normalized label: lower-case words, one space apart. *)
Lemma normaliza_str_forma s :
  exists ws, Forall palabra ws /\ map lower ws = ws
             /\ normaliza_str s = join " " ws.
Proof.
  unfold normaliza_str.
  exists (map lower (split (strip (replace nl " " s)))).
  split; [|split].
  - apply Forall_map.
    eapply Forall_impl; [|apply split_palabras].
    apply palabra_lower.
  - rewrite map_map. apply map_ext. intros; apply lower_idem.
  - apply lower_join.
Qed.

Lemma normaliza_str_fijo ws :
  Forall palabra ws -> map lower ws = ws ->
  normaliza_str (join " " ws) = join " " ws.
Proof.
  intros Hws Hlow. unfold normaliza_str, nl.
  rewrite replace_char_ausente.
  - rewrite strip_join, split_join, lower_join by exact Hws.
    now rewrite Hlow.
  - apply tiene_join; [reflexivity|].
    eapply Forall_impl; [|exact Hws].
    intros w [_ Hw]. eapply tiene_weaken; [|exact Hw].
    intros a Ha. apply Ascii.eqb_eq in Ha. now subst a.
Qed.

(** C7. The column normalizer is idempotent: for every label, a string or
    not, normalizing the normalized label gives the normalized label (the
    function is the same in both scripts). *)
Theorem normaliza_col_idempotent (col : pyval) :
  normaliza_col (normaliza_col col) = normaliza_col col.
Proof.
  destruct col as [s| | | |]; try reflexivity.
  simpl. f_equal.
  destruct (normaliza_str_forma s) as (ws & Hws & Hlow & ->).
  now apply normaliza_str_fijo.
Qed.

(** ** The header locator *)

Section Locator.

Context {pandas : Pandas}.

Lemma fila_con_fecha_existsb row :
  existsb es_fecha row = true <-> fila_con_fecha row.
Proof.
  unfold fila_con_fecha. rewrite existsb_exists.
  split; intros (v & Hin & Hv); exists v; split; trivial;
    unfold es_fecha in *; now apply String.eqb_eq.
Qed.

Lemma fila_sin_fecha_existsb row :
  existsb es_fecha row = false <-> ~ fila_con_fecha row.
Proof.
  rewrite <- fila_con_fecha_existsb.
  destruct (existsb es_fecha row); split; congruence.
Qed.

Lemma detecta_header_desde_ok k df i :
  detecta_header_desde k df = Ok i <->
  exists n, i = k + n
            /\ (exists row, nth_error df n = Some row /\ fila_con_fecha row)
            /\ (forall j row, j < n -> nth_error df j = Some row ->
                              ~ fila_con_fecha row).
Proof.
  revert k; induction df as [|r df IH]; intros k; simpl.
  - split; [discriminate|].
    intros (n & _ & (row & Hn & _) & _). now destruct n.
  - destruct (existsb es_fecha r) eqn:Hr.
    + apply fila_con_fecha_existsb in Hr. split.
      * intros [= <-]. exists 0. split; [lia|]. split.
        -- now exists r.
        -- intros j row Hj. lia.
      * intros (n & -> & _ & Hmin). destruct n as [|n]; [f_equal; lia|].
        exfalso. apply (Hmin 0 r); [lia | reflexivity | exact Hr].
    + apply fila_sin_fecha_existsb in Hr. rewrite IH. split.
      * intros (n & -> & Hrow & Hmin). exists (S n). split; [lia|].
        split; [exact Hrow|].
        intros [|j] row Hj Hnth; simpl in Hnth.
        -- now injection Hnth as <-.
        -- apply (Hmin j); [lia | exact Hnth].
      * intros (n & -> & (row & Hn & Hrow) & Hmin).
        destruct n as [|n]; simpl in Hn.
        -- injection Hn as <-. contradiction.
        -- exists n. split; [lia|]. split; [now exists row|].
           intros j row' Hj Hnth. apply (Hmin (S j)); [lia | exact Hnth].
Qed.

Lemma detecta_header_desde_error k df e :
  detecta_header_desde k df = Error e <->
  e = HeaderNotFound /\ forall row, In row df -> ~ fila_con_fecha row.
Proof.
  revert k; induction df as [|r df IH]; intros k; simpl.
  - split; [intros [= <-]; now split | intros [-> _]; reflexivity].
  - destruct (existsb es_fecha r) eqn:Hr.
    + apply fila_con_fecha_existsb in Hr. split; [discriminate|].
      intros [_ H]. exfalso. apply (H r); [now left | exact Hr].
    + apply fila_sin_fecha_existsb in Hr. rewrite IH. split.
      * intros [-> H]. split; [reflexivity|].
        intros row [<-|Hin]; [exact Hr | now apply H].
      * intros [-> H]. split; [reflexivity|].
        intros row Hin. apply H. now right.
Qed.

(** C3. The header locator returns the zero-based index [i] exactly when
    row [i] is the first row, from the top, with a cell whose trimmed,
    lower-cased text is exactly "fecha"; it raises, and then the error is
    [HeaderNotFound] and nothing else is returned, exactly when no row has
    such a cell.  "Fecha2024" is not a match; "FECHA" and " fecha " are. *)
Theorem detecta_header_primera_fila (df : list (list pyval)) :
  (forall i, detecta_header df = Ok i <->
             (exists row, nth_error df i = Some row /\ fila_con_fecha row)
             /\ (forall j row, j < i -> nth_error df j = Some row ->
                               ~ fila_con_fecha row))
  /\ (forall e, detecta_header df = Error e <->
                e = HeaderNotFound
                /\ forall row, In row df -> ~ fila_con_fecha row)
  /\ ((exists e, detecta_header df = Error e) <->
      forall row, In row df -> ~ fila_con_fecha row)
  /\ es_fecha (VStr "Fecha2024") = false
  /\ es_fecha (VStr "FECHA") = true
  /\ es_fecha (VStr " fecha ") = true.
Proof.
  split; [|split; [|split]].
  - intros i. unfold detecta_header. rewrite detecta_header_desde_ok.
    split.
    + intros (n & -> & H). exact H.
    + intros H. now exists i.
  - intros e. apply detecta_header_desde_error.
  - split.
    + intros (e & He). now apply detecta_header_desde_error in He.
    + intros H. exists HeaderNotFound.
      now apply detecta_header_desde_error.
  - repeat split; reflexivity.
Qed.

End Locator.

(** ** The text of a value before numeric parsing *)

Lemma tiene_replace_from_vacio p old k s :
  tiene p s = false -> tiene p (replace_from old "" k s) = false.
Proof.
  revert k; induction s as [|c s IH]; intros k H; [reflexivity|].
  simpl in H. apply orb_false_iff in H as [Hc Hs].
  cbn [replace_from]. destruct k as [|k]; [|now apply IH].
  destruct (startswith old (String c s)).
  - simpl. now apply IH.
  - simpl. now rewrite Hc, IH.
Qed.

(** After [replace(c, "")] the character [c] is gone. *)
Lemma replace_char_quita c s :
  tiene (Ascii.eqb c) (replace (String c EmptyString) "" s) = false.
Proof.
  unfold replace; simpl is_empty; cbv iota.
  induction s as [|a s IH]; [reflexivity|].
  cbn [replace_from]. rewrite startswith_char.
  destruct (Ascii.eqb c a) eqn:E; simpl.
  - exact IH.
  - now rewrite E, IH.
Qed.

Lemma startswith_guiones c s :
  startswith "--" (String c s) =
  Ascii.eqb "-" c && match s with
                     | EmptyString => false
                     | String d _ => Ascii.eqb "-" d
                     end.
Proof.
  rewrite startswith_cons. f_equal.
  destruct s as [|d s]; [reflexivity | apply startswith_char].
Qed.

Lemma replace_guiones_cabeza s :
  match s with
  | EmptyString => true
  | String d _ => negb (Ascii.eqb "-" d)
  end = true ->
  match replace_from "--" "" 0 s with
  | EmptyString => true
  | String d _ => negb (Ascii.eqb "-" d)
  end = true.
Proof.
  destruct s as [|d s]; [reflexivity|].
  intros Hd. cbn [replace_from]. rewrite startswith_guiones.
  apply negb_true_iff in Hd. rewrite Hd. cbn [andb]. now rewrite Hd.
Qed.

(** After [replace("--", "")] no two dashes are adjacent. *)
Lemma replace_guiones_quita k s :
  k <= 1 -> contains "--" (replace_from "--" "" k s) = false.
Proof.
  revert k; induction s as [|c s IH]; intros k Hk; [reflexivity|].
  cbn [replace_from]. destruct k as [|k]; [|apply IH; lia].
  destruct (startswith "--" (String c s)) eqn:E.
  - simpl. apply IH. lia.
  - cbn [contains]. rewrite (IH 0) by lia. rewrite orb_false_r.
    rewrite startswith_guiones in E.
    pose proof (replace_guiones_cabeza s) as Hcab.
    destruct (replace_from "--" "" 0 s) as [|d r];
      rewrite startswith_guiones; [apply andb_false_r|].
    destruct (Ascii.eqb "-" c); [|reflexivity].
    cbn [andb] in *.
    apply negb_true_iff, Hcab.
    destruct s as [|d' s']; [reflexivity | now rewrite E].
Qed.

Section Valores.

Context {pandas : Pandas}.

Lemma limpia_texto_sin_separadores s :
  tiene (Ascii.eqb ",") (limpia_texto s) = false
  /\ tiene (Ascii.eqb " ") (limpia_texto s) = false
  /\ contains "--" (limpia_texto s) = false.
Proof.
  unfold limpia_texto. split; [|split].
  - apply tiene_replace_from_vacio.
    change (replace " " "" (replace "," "" s))
      with (replace_from " " "" 0 (replace "," "" s)).
    apply tiene_replace_from_vacio, replace_char_quita.
  - apply tiene_replace_from_vacio, replace_char_quita.
  - apply replace_guiones_quita. lia.
Qed.

(** C10. Before numeric parsing the cleaner removes ",", " " and "--"
    wherever they occur in the text of the cell: the text that is parsed
    has no comma, no space and no two adjacent dashes left.  Given that
    pandas reads the empty string as NaN and "12", "123" as 12 and 123, a
    cell "--" becomes missing, while "1--2" and "1,2 3" become the numbers
    12 and 123, not missing. *)
Theorem limpia_valor_quita_en_todo_el_texto
  (H0 : to_numeric "" = None)
  (H12 : to_numeric "12" = Some (Fin 12))
  (H123 : to_numeric "123" = Some (Fin 123)) :
  (forall v, limpia_valor v = to_numeric (limpia_texto (astype_str v)))
  /\ (forall s, tiene (Ascii.eqb ",") (limpia_texto s) = false
                /\ tiene (Ascii.eqb " ") (limpia_texto s) = false
                /\ contains "--" (limpia_texto s) = false)
  /\ limpia_texto "--" = ""
  /\ limpia_valor (VStr "--") = None
  /\ limpia_valor (VStr "1--2") = Some (Fin 12)
  /\ limpia_valor (VStr "1,2 3") = Some (Fin 123).
Proof.
  split; [reflexivity|].
  split; [apply limpia_texto_sin_separadores|].
  repeat split; unfold limpia_valor; simpl astype_str;
    [ change (limpia_texto "--") with ""
    | change (limpia_texto "1--2") with "12"
    | change (limpia_texto "1,2 3") with "123" ]; assumption.
Qed.

End Valores.

Lemma limpia_valor_quita_en_todo_el_texto_witness :
  @limpia_valor Ejemplo.pandas (VStr "--") = None
  /\ @limpia_valor Ejemplo.pandas (VStr "1--2") = Some (Fin 12)
  /\ @limpia_valor Ejemplo.pandas (VStr "1,2 3") = Some (Fin 123).
Proof.
  pose proof (@limpia_valor_quita_en_todo_el_texto Ejemplo.pandas
                eq_refl eq_refl eq_refl) as H.
  repeat split; apply H.
Defined.

(** ** Sums with zero *)

(** ** Sums in binary64 and modulo 2^64 *)

Lemma to_num_add_cero_l (f : spec_float) :
  Float64.to_num (SFadd Float64.prec Float64.emax (S754_zero false) f)
  = Float64.to_num f.
Proof. destruct f as [[|]| | |]; reflexivity. Qed.

Lemma to_num_add_cero_r (f : spec_float) :
  Float64.to_num (SFadd Float64.prec Float64.emax f (S754_zero false))
  = Float64.to_num f.
Proof. destruct f as [[|]| | |]; reflexivity. Qed.

Lemma add_cero_l (x : num) :
  Float64.exacto x -> Float64.add (Fin 0) x = Some x.
Proof.
  unfold Float64.exacto, Float64.add. intros <-.
  change (Float64.of_num (Fin 0)) with (S754_zero false).
  apply to_num_add_cero_l.
Qed.

Lemma add_cero_r (x : num) :
  Float64.exacto x -> Float64.add x (Fin 0) = Some x.
Proof.
  unfold Float64.exacto, Float64.add. intros <-.
  change (Float64.of_num (Fin 0)) with (S754_zero false).
  apply to_num_add_cero_r.
Qed.

Lemma wrap_int64_id (z : Z) :
  (- 2 ^ 63 <= z < 2 ^ 63)%Z -> wrap_int64 z = z.
Proof.
  intros Hz. unfold wrap_int64.
  rewrite Z.mod_small; lia.
Qed.

Lemma wrap_uint64_id (z : Z) :
  (0 <= z < 2 ^ 64)%Z -> wrap_uint64 z = z.
Proof. intros Hz. unfold wrap_uint64. now rewrite Z.mod_small. Qed.

Lemma entero_inject_Z (z : Z) : entero (Fin (inject_Z z)) = z.
Proof. unfold entero, inject_Z. cbn [Qnum Qden]. apply Z.div_1_r. Qed.

(** ** Missing columns *)

Lemma es_etiqueta_true c l : es_etiqueta c l = true <-> l = VStr c.
Proof.
  destruct l as [s| | | |]; simpl; try (split; congruence).
  rewrite String.eqb_eq. split; congruence.
Qed.

Lemma en_columnas_In c cols : en_columnas c cols = true <-> In (VStr c) cols.
Proof.
  unfold en_columnas. rewrite existsb_exists. split.
  - intros (l & Hin & Hl). apply es_etiqueta_true in Hl. now subst.
  - intros Hin. exists (VStr c). split; [exact Hin|].
    now apply es_etiqueta_true.
Qed.

Lemma faltantes_In req cols c :
  In c (faltantes req cols) <-> In c req /\ ~ In (VStr c) cols.
Proof.
  unfold faltantes. rewrite filter_In, negb_true_iff.
  rewrite <- en_columnas_In.
  destruct (en_columnas c cols); intuition congruence.
Qed.

Section Faltantes.

Context {pandas : Pandas}.

(** X16. Once the header row [i] is found and the labels are normalized
    (and, in excel_a_csv, renamed into [cols], which takes every label to
    be text): if a required label is absent from [cols], the cleaner of
    either script returns no table but the error [MissingColumns] with the
    sheet name and the list [faltantes]; that list holds exactly the
    required labels that are absent, each of them, in the order of
    [requeridas]. *)
Theorem faltan_columnas_requeridas (xls : ExcelFile) (sheet : string) :
  (forall i cols,
      detecta_header (parse_raw xls sheet) = Ok i ->
      ExcelACsv.renombra
        (map normaliza_col (columns (parse_header xls sheet i))) = Ok cols ->
      faltantes ExcelACsv.requeridas cols <> [] ->
      ExcelACsv.carga_y_limpia_hoja xls sheet =
      Error (MissingColumns sheet (faltantes ExcelACsv.requeridas cols)))
  /\ (forall i cols,
         detecta_header (parse_raw xls sheet) = Ok i ->
         map normaliza_col (columns (parse_header xls sheet i)) = cols ->
         faltantes Actualiza2025.requeridas cols <> [] ->
         Actualiza2025.carga_y_limpia_importacion xls sheet =
         Error (MissingColumns sheet (faltantes Actualiza2025.requeridas cols)))
  /\ (forall req cols c,
         In c (faltantes req cols) <-> In c req /\ ~ In (VStr c) cols)
  /\ (forall req cols,
         faltantes req cols =
         filter (fun c => negb (en_columnas c cols)) req).
Proof.
  split; [|split; [|split]].
  - intros i cols Hdet Hren Hfalt.
    unfold ExcelACsv.carga_y_limpia_hoja. rewrite Hdet. cbn [bind].
    rewrite Hren. cbn [bind columns].
    destruct (faltantes ExcelACsv.requeridas cols); congruence.
  - intros i cols Hdet <- Hfalt.
    unfold Actualiza2025.carga_y_limpia_importacion. rewrite Hdet.
    cbn [bind columns].
    destruct (faltantes Actualiza2025.requeridas
                (map normaliza_col (columns (parse_header xls sheet i))));
      congruence.
  - apply faltantes_In.
  - reflexivity.
Qed.

End Faltantes.

Lemma faltan_columnas_requeridas_witness :
  @ExcelACsv.carga_y_limpia_hoja Ejemplo.pandas
    (Ejemplo.libro hoja_sin_diesel) "IMPORTACION"
  = Error (MissingColumns "IMPORTACION" ["diesel alto azufre"])
  /\ @Actualiza2025.carga_y_limpia_importacion Ejemplo.pandas
       (Ejemplo.libro hoja_sin_diesel) "IMPORTACION"
     = Error (MissingColumns "IMPORTACION"
                ["diesel bajo azufre"; "diesel ultra bajo azufre"]).
Proof.
  pose proof (@faltan_columnas_requeridas Ejemplo.pandas
                (Ejemplo.libro hoja_sin_diesel) "IMPORTACION") as [H1 [H2 _]].
  split.
  - apply (H1 1 _ eq_refl eq_refl). discriminate.
  - apply (H2 1 _ eq_refl eq_refl). discriminate.
Defined.

(** C5 fails in excel_a_csv.  The sheet [hoja_anio_sin_diesel] has its
    header in row 0, with the labels "Fecha", "Gasolina Regular",
    "Gasolina Superior" and the number 2024: the required label
    "diesel alto azufre" is absent from its normalized labels (and no
    label would be renamed to it).  The cleaner of excel_a_csv does not
    report it: its renaming loop calls [startswith] on the label 2024,
    which [normaliza_col] has passed through, and the run ends with that
    exception, not with [MissingColumns].  The cleaner of the update-2025
    script, which has no renaming loop, reports the labels that the same
    sheet lacks. *)
Theorem etiqueta_no_textual_oculta_faltantes :
  let xls := Ejemplo.libro hoja_anio_sin_diesel in
  let cols :=
    map normaliza_col (columns (parse_header xls "IMPORTACION" 0)) in
  @detecta_header Ejemplo.pandas (parse_raw xls "IMPORTACION") = Ok 0
  /\ cols = [VStr "fecha"; VStr "gasolina regular";
             VStr "gasolina superior"; VInt 2024]
  /\ faltantes ExcelACsv.requeridas cols = ["diesel alto azufre"]
  /\ ExcelACsv.renombra cols = Error OtherError
  /\ @ExcelACsv.carga_y_limpia_hoja Ejemplo.pandas xls "IMPORTACION"
     = Error OtherError
  /\ @Actualiza2025.carga_y_limpia_importacion Ejemplo.pandas xls
       "IMPORTACION"
     = Error (MissingColumns "IMPORTACION"
                ["diesel bajo azufre"; "diesel ultra bajo azufre"]).
Proof. repeat split. Qed.

(** ** Sorting and re-indexing *)

Lemma map_fst_combine_eq {A B : Type} (l1 : list A) (l2 : list B) :
  List.length l1 = List.length l2 -> map fst (combine l1 l2) = l1.
Proof.
  revert l2; induction l1 as [|a l1 IH]; intros [|b l2] H;
    simpl in *; try reflexivity; try discriminate.
  f_equal. apply IH. lia.
Qed.

Lemma map_snd_combine_eq {A B : Type} (l1 : list A) (l2 : list B) :
  List.length l1 = List.length l2 -> map snd (combine l1 l2) = l2.
Proof.
  revert l2; induction l1 as [|a l1 IH]; intros [|b l2] H;
    simpl in *; try reflexivity; try discriminate.
  f_equal. apply IH. lia.
Qed.

Section SortFacts.

Context {A : Type} (key : A -> Z).

Lemma reset_index_fst (f : list (nat * A)) :
  map fst (reset_index f) = seq 0 (List.length f).
Proof.
  unfold reset_index. apply map_fst_combine_eq.
  now rewrite length_seq, length_map.
Qed.

Lemma reset_index_snd (f : list (nat * A)) :
  map snd (reset_index f) = map snd f.
Proof.
  unfold reset_index. apply map_snd_combine_eq.
  now rewrite length_seq, length_map.
Qed.

Lemma reset_index_length (f : list (nat * A)) :
  List.length (reset_index f) = List.length f.
Proof.
  unfold reset_index.
  now rewrite length_combine, length_seq, length_map, Nat.min_id.
Qed.

Lemma range_index_snd (l : list A) : map snd (range_index l) = l.
Proof. unfold range_index. apply map_snd_combine_eq, length_seq. Qed.

Lemma insert_by_perm x (l : list (nat * A)) :
  Permutation (x :: l) (insert_by key x l).
Proof.
  induction l as [|y l IH]; simpl; [reflexivity|].
  destruct (key (snd x) <=? key (snd y))%Z; [reflexivity|].
  rewrite perm_swap. now constructor.
Qed.

Lemma sort_values_perm (l : list (nat * A)) :
  Permutation l (sort_values key l).
Proof.
  induction l as [|x l IH]; simpl; [reflexivity|].
  rewrite <- insert_by_perm. now constructor.
Qed.

Lemma insert_by_sorted x (l : list (nat * A)) :
  StronglySorted Z.le (claves key l) ->
  StronglySorted Z.le (claves key (insert_by key x l)).
Proof.
  induction l as [|y l IH]; intros Hs; simpl.
  - repeat constructor.
  - inversion Hs as [|? ? Hl Hy]; subst.
    destruct (key (snd x) <=? key (snd y))%Z eqn:E.
    + apply Z.leb_le in E. constructor; [exact Hs|].
      constructor; [exact E|].
      eapply Forall_impl; [|exact Hy]. intros z Hz. simpl in Hz. lia.
    + apply Z.leb_gt in E. simpl. constructor; [now apply IH|].
      assert (Hp : Permutation (claves key (x :: l)) (claves key (insert_by key x l)))
        by apply Permutation_map, insert_by_perm.
      eapply Permutation_Forall; [exact Hp|].
      constructor; [lia | exact Hy].
Qed.

Lemma sort_values_sorted (l : list (nat * A)) :
  StronglySorted Z.le (claves key (sort_values key l)).
Proof.
  induction l as [|x l IH]; simpl; [constructor|].
  now apply insert_by_sorted.
Qed.

End SortFacts.

Lemma sorted_le_nodup_lt (l : list Z) :
  StronglySorted Z.le l -> NoDup l -> StronglySorted Z.lt l.
Proof.
  induction 1 as [|a l Hs IH Ha]; intros Hnd; [constructor|].
  inversion Hnd as [|? ? Hnotin Hnd']; subst.
  constructor; [now apply IH|].
  rewrite Forall_forall in *. intros z Hz.
  specialize (Ha z Hz).
  assert (a <> z) by (intros ->; contradiction).
  lia.
Qed.

Lemma sorted_lt_nodup (l : list Z) : StronglySorted Z.lt l -> NoDup l.
Proof.
  induction 1 as [|a l Hs IH Ha]; constructor; [|exact IH].
  intros Hin. rewrite Forall_forall in Ha. specialize (Ha a Hin). lia.
Qed.

(** ** The cleaned rows *)

Section Limpieza.

Context {pandas : Pandas}.

Lemma notna_fecha_conserva col k (sel : list (list pyval)) :
  map (fun x => mkFila (fst x) (map limpia_valor (snd x)))
    (map snd
       (notna_fecha
          (map (fun ir => (fst ir, (to_datetime col (hd VNaN (snd ir)),
                                    tl (snd ir))))
             (combine (seq k (List.length sel)) sel))))
  = flat_map (conserva col) sel.
Proof.
  revert k; induction sel as [|r sel IH]; intros k; [reflexivity|].
  cbn [List.length seq combine map fst snd notna_fecha flat_map].
  unfold conserva at 1.
  destruct (to_datetime col (hd VNaN r)) as [d|]; cbn; now rewrite IH.
Qed.

Lemma limpia_filas_snd (sel : list (list pyval)) :
  map snd (limpia_filas sel) =
  map (fun x => mkFila (fst x) (map limpia_valor (snd x)))
    (map snd
       (sort_values fst
          (notna_fecha
             (map (fun ir => (fst ir, (to_datetime (col_fecha sel)
                                         (hd VNaN (snd ir)),
                                       tl (snd ir))))
                (range_index sel))))).
Proof.
  unfold limpia_filas. rewrite map_map. cbn [snd].
  rewrite <- (map_map snd
                (fun x => mkFila (fst x) (map limpia_valor (snd x)))).
  now rewrite reset_index_snd.
Qed.

(** The cleaned rows are the rows of valid date, each once. *)
Lemma limpia_filas_perm (sel : list (list pyval)) :
  Permutation (map snd (limpia_filas sel))
    (flat_map (conserva (col_fecha sel)) sel).
Proof.
  rewrite limpia_filas_snd, <- (notna_fecha_conserva _ 0).
  apply Permutation_map, Permutation_map, Permutation_sym.
  apply sort_values_perm.
Qed.

Lemma limpia_filas_index (sel : list (list pyval)) :
  map fst (limpia_filas sel) = seq 0 (List.length (limpia_filas sel)).
Proof.
  unfold limpia_filas. rewrite length_map, map_map. cbn [fst].
  now rewrite reset_index_length, <- reset_index_fst.
Qed.

Lemma limpia_filas_sorted (sel : list (list pyval)) :
  StronglySorted Z.le (map (fun r => fecha (snd r)) (limpia_filas sel)).
Proof.
  unfold limpia_filas. rewrite map_map. cbn [snd fecha].
  rewrite <- (map_map snd fst), reset_index_snd, map_map.
  apply (sort_values_sorted fst).
Qed.

Lemma conserva_largo col r f :
  In f (conserva col r) -> List.length (valores f) = List.length r - 1.
Proof.
  unfold conserva. destruct (to_datetime col (hd VNaN r)); [|contradiction].
  intros [<-|[]]. cbn. rewrite length_map. destruct r; simpl; lia.
Qed.

Lemma limpia_filas_largo req cols rws :
  Forall (fun r => List.length (valores (snd r)) = List.length req - 1)
    (limpia_filas (map (proyecta req cols) rws)).
Proof.
  apply Forall_forall. intros [i f] Hin.
  assert (Hf : In f (map snd (limpia_filas (map (proyecta req cols) rws))))
    by (apply in_map_iff; now exists (i, f)).
  eapply Permutation_in in Hf; [|apply limpia_filas_perm].
  apply in_flat_map in Hf as (r & Hr & Hf).
  apply in_map_iff in Hr as (r0 & <- & _).
  apply conserva_largo in Hf. cbn [snd]. rewrite Hf.
  unfold proyecta. now rewrite length_map.
Qed.

(** What a successful run of each cleaner went through. *)
Lemma carga_y_limpia_hoja_ok xls sheet t :
  ExcelACsv.carga_y_limpia_hoja xls sheet = Ok t ->
  exists i cols,
    detecta_header (parse_raw xls sheet) = Ok i
    /\ ExcelACsv.renombra
         (map normaliza_col (columns (parse_header xls sheet i))) = Ok cols
    /\ faltantes ExcelACsv.requeridas cols = []
    /\ t = mkTabla (tl ExcelACsv.requeridas)
             (limpia_filas (map (proyecta ExcelACsv.requeridas cols)
                              (rows (parse_header xls sheet i)))).
Proof.
  unfold ExcelACsv.carga_y_limpia_hoja.
  destruct (detecta_header (parse_raw xls sheet)) as [i|] eqn:Hd;
    [|discriminate].
  cbn [bind].
  destruct (ExcelACsv.renombra _) as [cols|] eqn:Hr; [|discriminate].
  cbn [bind columns rows].
  destruct (faltantes ExcelACsv.requeridas cols) eqn:Hf; [|discriminate].
  unfold selecciona. cbn [columns rows].
  destruct (forallb _ _); [|discriminate].
  cbn [bind]. intros [= <-]. now exists i, cols.
Qed.

Lemma carga_y_limpia_importacion_ok xls sheet t :
  Actualiza2025.carga_y_limpia_importacion xls sheet = Ok t ->
  exists i,
    detecta_header (parse_raw xls sheet) = Ok i
    /\ faltantes Actualiza2025.requeridas
         (map normaliza_col (columns (parse_header xls sheet i))) = []
    /\ let sel := map (proyecta Actualiza2025.requeridas
                           (map normaliza_col
                              (columns (parse_header xls sheet i))))
                    (rows (parse_header xls sheet i)) in
       t = Actualiza2025.combina_diesel
             (dtype_columna 2 sel) (dtype_columna 3 sel)
             (mkTabla (tl Actualiza2025.requeridas) (limpia_filas sel)).
Proof.
  unfold Actualiza2025.carga_y_limpia_importacion.
  destruct (detecta_header (parse_raw xls sheet)) as [i|] eqn:Hd;
    [|discriminate].
  cbn [bind columns rows].
  destruct (faltantes Actualiza2025.requeridas _) eqn:Hf; [|discriminate].
  unfold selecciona. cbn [columns rows].
  destruct (forallb _ _); [|discriminate].
  cbn [bind]. intros [= <-]. now exists i.
Qed.

End Limpieza.

(** ** The diesel total, row by row *)

Section Diesel.

Context {pandas : Pandas}.

Import Actualiza2025.

(** C1. The table that the update-2025 cleaner returns is made row by row
    from the cleaned table [df] of the five required columns: the third
    column of each row, named Diesel_Imp, is the sum of the columns
    "diesel bajo azufre" and "diesel ultra bajo azufre" of that row with a
    missing value counted as zero, taken in the dtype in which numpy adds
    the two columns: modulo 2^64 when both are int64 or both uint64,
    rounded to binary64 otherwise.  Missing plus a number is that number
    when the number is a value of the dtype of the sum (a binary64 value
    in float64, an integer of the range in int64 or uint64); missing plus
    missing is the number 0; the sum of two integer columns is never
    missing; and the pairs (5, missing), (missing, missing), (3, 2) give
    5, 0, 5 whatever the dtypes of the two columns. *)
Theorem diesel_total_suma_en_el_dtype (xls : ExcelFile) (sheet : string)
  (t : Tabla) (H : carga_y_limpia_importacion xls sheet = Ok t) :
  (exists i,
      detecta_header (parse_raw xls sheet) = Ok i
      /\ let sel :=
           map (proyecta requeridas
                  (map normaliza_col (columns (parse_header xls sheet i))))
             (rows (parse_header xls sheet i)) in
         let df := mkTabla (tl requeridas) (limpia_filas sel) in
         let d := result_type (dtype_columna 2 sel) (dtype_columna 3 sel) in
         columnas t = ["Regular_Imp"; "Superior_Imp"; "Diesel_Imp"]
         /\ filas t =
            map (fun r =>
                   (fst r,
                    mkFila (fecha (snd r))
                      [columna df "gasolina regular" (snd r);
                       columna df "gasolina superior" (snd r);
                       suma_num d
                         (valor_o_cero
                            (columna df "diesel bajo azufre" (snd r)))
                         (valor_o_cero
                            (columna df "diesel ultra bajo azufre"
                               (snd r)))]))
              (filas df))
  /\ (forall da db x,
         result_type da db = Float64 -> Float64.exacto x ->
         suma da db (fillna (Fin 0) None) (fillna (Fin 0) (Some x)) = Some x
         /\ suma da db (fillna (Fin 0) (Some x)) (fillna (Fin 0) None)
            = Some x)
  /\ (forall z,
         (- 2 ^ 63 <= z < 2 ^ 63)%Z ->
         let x := Fin (inject_Z z) in
         suma Int64 Int64 (fillna (Fin 0) None) (fillna (Fin 0) (Some x))
         = Some x
         /\ suma Int64 Int64 (fillna (Fin 0) (Some x)) (fillna (Fin 0) None)
            = Some x)
  /\ (forall z,
         (0 <= z < 2 ^ 64)%Z ->
         let x := Fin (inject_Z z) in
         suma UInt64 UInt64 (fillna (Fin 0) None) (fillna (Fin 0) (Some x))
         = Some x
         /\ suma UInt64 UInt64 (fillna (Fin 0) (Some x))
              (fillna (Fin 0) None)
            = Some x)
  /\ (forall da db,
         suma da db (fillna (Fin 0) None) (fillna (Fin 0) None)
         = Some (Fin 0))
  /\ (forall da db a b,
         result_type da db <> Float64 ->
         suma da db (fillna (Fin 0) a) (fillna (Fin 0) b) <> None)
  /\ (forall da db,
         map (fun bu =>
                suma da db (fillna (Fin 0) (fst bu))
                  (fillna (Fin 0) (snd bu)))
           [(Some (Fin 5), None); (None, None);
            (Some (Fin 3), Some (Fin 2))]
         = [Some (Fin 5); Some (Fin 0); Some (Fin 5)]).
Proof.
  split.
  { destruct (carga_y_limpia_importacion_ok _ _ _ H) as (i & Hd & _ & ->).
    exists i. split; [exact Hd|]. cbv zeta. split; [reflexivity|].
    unfold combina_diesel, rename; cbn [filas].
    apply map_ext. intros [k f]. cbn [fst snd]. do 4 f_equal.
    unfold diesel_total.
    destruct (columna _ "diesel bajo azufre" f),
      (columna _ "diesel ultra bajo azufre" f); reflexivity. }
  split.
  { intros da db x Hd Hx. unfold suma, fillna. rewrite Hd.
    cbn [suma_num]. split; [now apply add_cero_l | now apply add_cero_r]. }
  split.
  { intros z Hz x. unfold suma, fillna, x.
    cbn [result_type suma_num]. rewrite entero_inject_Z.
    change (entero (Fin 0)) with 0%Z.
    rewrite Z.add_0_l, Z.add_0_r, wrap_int64_id by exact Hz.
    now split. }
  split.
  { intros z Hz x. unfold suma, fillna, x.
    cbn [result_type suma_num]. rewrite entero_inject_Z.
    change (entero (Fin 0)) with 0%Z.
    rewrite Z.add_0_l, Z.add_0_r, wrap_uint64_id by exact Hz.
    now split. }
  split.
  { intros [| |] [| |]; reflexivity. }
  split.
  { intros da db a b Hd. unfold suma, fillna.
    destruct a, b, da, db; cbn [result_type suma_num] in *;
      congruence. }
  intros [| |] [| |]; vm_compute; reflexivity.
Qed.

End Diesel.

Lemma diesel_total_suma_en_el_dtype_witness :
  exists t,
    @Actualiza2025.carga_y_limpia_importacion Ejemplo.pandas
      (Ejemplo.libro hoja_2025) "IMPORTACION" = Ok t
    /\ map (fun r => (fecha (snd r), nth 2 (valores (snd r)) None))
         (filas t)
       = [(1%Z, Some (Fin 5)); (2%Z, Some (Fin 0)); (3%Z, Some (Fin 5))]
    /\ suma Float64 Float64 (fillna (Fin 0) None)
         (fillna (Fin 0) (Some (Fin (5 # 2))))
       = Some (Fin (5 # 2))
    /\ suma Int64 Float64 (fillna (Fin 0) (Some (Fin 9007199254740992)))
         (fillna (Fin 0) None)
       = Some (Fin 9007199254740992).
Proof.
  eexists. split; [reflexivity|].
  destruct (@diesel_total_suma_en_el_dtype Ejemplo.pandas
              (Ejemplo.libro hoja_2025) "IMPORTACION" _ eq_refl)
    as ((i & Hd & _ & Hfilas) & Hx & _).
  split; [injection Hd as <-; rewrite Hfilas; reflexivity|].
  split.
  - exact (proj1 (Hx Float64 Float64 (Fin (5 # 2)) eq_refl eq_refl)).
  - exact (proj2 (Hx Int64 Float64 (Fin 9007199254740992)
                    eq_refl eq_refl)).
Defined.

(** C1 as stated fails: the sum is the sum of numpy, not of the numbers.
    On a sheet whose low-sulfur column is the int64 column of the single
    value 2^53 + 1 and whose ultra-low-sulfur cell is "--", the cleaned row
    holds 2^53 + 1 and a missing value, and Diesel_Imp is 2^53: missing
    plus a number is not that number.  The sum of two opposite infinities
    is missing, and the sum of two int64 columns wraps. *)
Lemma diesel_total_redondea :
  (exists i t,
      @detecta_header Ejemplo.pandas
        (parse_raw (Ejemplo.libro hoja_2025_grande) "IMPORTACION") = Ok i
      /\ (let sel :=
            map (proyecta Actualiza2025.requeridas
                   (map normaliza_col
                      (columns (parse_header
                                  (Ejemplo.libro hoja_2025_grande)
                                  "IMPORTACION" i))))
              (rows (parse_header (Ejemplo.libro hoja_2025_grande)
                       "IMPORTACION" i)) in
          map (fun f => valores (snd f)) (@limpia_filas Ejemplo.pandas sel)
          = [[Some (Fin 1); Some (Fin 1); Some (Fin 9007199254740993);
              None]]
          /\ @dtype_columna Ejemplo.pandas 2 sel = Int64
          /\ @dtype_columna Ejemplo.pandas 3 sel = Float64)
      /\ @Actualiza2025.carga_y_limpia_importacion Ejemplo.pandas
           (Ejemplo.libro hoja_2025_grande) "IMPORTACION" = Ok t
      /\ map (fun r => nth 2 (valores (snd r)) None) (filas t)
         = [Some (Fin 9007199254740992)])
  /\ suma Int64 Float64 (fillna (Fin 0) (Some (Fin 9007199254740993)))
       (fillna (Fin 0) None)
     = Some (Fin 9007199254740992)
  /\ suma Float64 Float64 (fillna (Fin 0) (Some (Inf false)))
       (fillna (Fin 0) (Some (Inf true)))
     = None
  /\ suma Int64 Int64 (fillna (Fin 0) (Some (Fin 4611686018427387904)))
       (fillna (Fin 0) (Some (Fin 4611686018427387904)))
     = Some (Fin (-9223372036854775808)).
Proof.
  split.
  { exists 0, (mkTabla ["Regular_Imp"; "Superior_Imp"; "Diesel_Imp"]
                 [(0, mkFila 1 [Some (Fin 1); Some (Fin 1);
                                Some (Fin 9007199254740992)])]).
    repeat split; vm_compute; reflexivity. }
  repeat split; vm_compute; reflexivity.
Qed.

Section Descartes.

Context {pandas : Pandas}.

(** C4. When the cleaner of excel_a_csv returns a table for a sheet, its
    rows are exactly the selected rows of the sheet whose date cell parses,
    each once: a row whose date cell does not parse leaves nothing, and a
    row whose date cell parses is kept whatever its value cells hold, each
    value cell being what [pd.to_numeric] makes of its cleaned text, so
    that a cell that cannot be parsed (such as "--", whose cleaned text is
    empty) becomes a missing value in a row that stays. *)
Theorem filas_sin_fecha_se_descartan (xls : ExcelFile) (sheet : string)
  (t : Tabla) (H : ExcelACsv.carga_y_limpia_hoja xls sheet = Ok t) :
  exists i cols,
    detecta_header (parse_raw xls sheet) = Ok i
    /\ ExcelACsv.renombra
         (map normaliza_col (columns (parse_header xls sheet i))) = Ok cols
    /\ let sel := map (proyecta ExcelACsv.requeridas cols)
                    (rows (parse_header xls sheet i)) in
       let col := col_fecha sel in
       Permutation (map snd (filas t)) (flat_map (conserva col) sel)
       /\ (forall r, to_datetime col (hd VNaN r) = None ->
                     conserva col r = [])
       /\ (forall r d, In r sel -> to_datetime col (hd VNaN r) = Some d ->
                       In (mkFila d (map limpia_valor (tl r)))
                         (map snd (filas t)))
       /\ (forall f, In f (map snd (filas t)) ->
                     exists r, In r sel
                               /\ to_datetime col (hd VNaN r)
                                  = Some (fecha f)
                               /\ valores f = map limpia_valor (tl r))
       /\ (forall v, to_numeric (limpia_texto (astype_str v)) = None ->
                     limpia_valor v = None)
       /\ (to_numeric "" = None -> limpia_valor (VStr "--") = None).
Proof.
  destruct (carga_y_limpia_hoja_ok _ _ _ H) as (i & cols & Hd & Hr & _ & ->).
  exists i, cols. split; [exact Hd|]. split; [exact Hr|].
  cbn [filas].
  set (sel := map (proyecta ExcelACsv.requeridas cols)
                (rows (parse_header xls sheet i))).
  pose proof (limpia_filas_perm sel) as Hperm.
  set (col := col_fecha sel) in *.
  split; [exact Hperm|]. split; [|split; [|split; [|split]]].
  - intros r Hr0. unfold conserva. now rewrite Hr0.
  - intros r d Hin Hdate.
    eapply Permutation_in; [apply Permutation_sym, Hperm|].
    apply in_flat_map. exists r. split; [exact Hin|].
    unfold conserva. rewrite Hdate. now left.
  - intros f Hf.
    eapply Permutation_in in Hf; [|exact Hperm].
    apply in_flat_map in Hf as (r & Hin & Hf). exists r.
    unfold conserva in Hf.
    destruct (to_datetime col (hd VNaN r)) as [d|]; [|contradiction].
    destruct Hf as [<-|[]]. now repeat split.
  - intros v Hv. exact Hv.
  - intros H0. exact H0.
Qed.

End Descartes.

Lemma filas_sin_fecha_se_descartan_witness :
  exists t,
    @ExcelACsv.carga_y_limpia_hoja Ejemplo.pandas
      (Ejemplo.libro hoja_ejemplo) "IMPORTACION" = Ok t
    /\ Permutation (map snd (filas t))
         [mkFila 30 [Some (Fin 123); None; Some (Fin 5)];
          mkFila 10 [Some (Fin 12); None; None];
          mkFila 20 [Some (Fin 4); Some (Fin 5); Some (Fin 6)]].
Proof.
  eexists. split; [reflexivity|].
  destruct (@filas_sin_fecha_se_descartan Ejemplo.pandas
              (Ejemplo.libro hoja_ejemplo) "IMPORTACION" _ eq_refl)
    as (i & cols & Hd & Hr & Hperm & _).
  injection Hd as <-. injection Hr as <-.
  exact Hperm.
Defined.

(** ** The invariant of a cleaned table *)

Section Invariante.

Context {pandas : Pandas}.

Lemma conserva_fechas sel :
  map fecha (flat_map (conserva (col_fecha sel)) sel) = fechas_validas sel.
Proof.
  unfold fechas_validas. generalize (col_fecha sel). intros col.
  induction sel as [|r sel IH]; [reflexivity|].
  cbn [flat_map]. rewrite map_app, IH. f_equal.
  unfold conserva. now destruct (to_datetime col (hd VNaN r)).
Qed.

Lemma limpia_filas_fechas sel :
  Permutation (map (fun r => fecha (snd r)) (limpia_filas sel))
    (fechas_validas sel).
Proof.
  rewrite <- conserva_fechas, <- (map_map snd fecha).
  apply Permutation_map, limpia_filas_perm.
Qed.

Lemma combina_diesel_fechas da db df :
  fechas (Actualiza2025.combina_diesel da db df) = fechas df.
Proof.
  unfold fechas, Actualiza2025.combina_diesel, rename; cbn [filas].
  now rewrite map_map.
Qed.

Lemma combina_diesel_index da db df :
  map fst (filas (Actualiza2025.combina_diesel da db df))
  = map fst (filas df).
Proof.
  unfold Actualiza2025.combina_diesel, rename; cbn [filas].
  now rewrite map_map.
Qed.

(** C6, as the code has it.  A table returned by either cleaner has its
    index labels numbered 0, 1, ... without gap, its rows in ascending date
    order, three value columns and, in every row, three values that are a
    number or the missing marker.  Its dates are the dates of the rows of
    the sheet whose date cell parses, one row for each such row: a date
    that two rows of the sheet carry is carried by two rows of the table,
    and the order is strict exactly when no date is repeated. *)
Theorem tabla_limpia_invariante (xls : ExcelFile) (sheet : string)
  (t : Tabla)
  (H : ExcelACsv.carga_y_limpia_hoja xls sheet = Ok t
       \/ Actualiza2025.carga_y_limpia_importacion xls sheet = Ok t) :
  map fst (filas t) = seq 0 (List.length (filas t))
  /\ StronglySorted Z.le (fechas t)
  /\ (StronglySorted Z.lt (fechas t) <-> NoDup (fechas t))
  /\ List.length (columnas t) = 3
  /\ Forall (fun r => List.length (valores (snd r)) = 3) (filas t)
  /\ exists i req cols,
       detecta_header (parse_raw xls sheet) = Ok i
       /\ (req = ExcelACsv.requeridas
           /\ ExcelACsv.renombra
                (map normaliza_col (columns (parse_header xls sheet i)))
              = Ok cols
           \/ req = Actualiza2025.requeridas
              /\ map normaliza_col (columns (parse_header xls sheet i))
                 = cols)
       /\ Permutation (fechas t)
            (fechas_validas
               (map (proyecta req cols) (rows (parse_header xls sheet i)))).
Proof.
  assert (Hiff : forall l, StronglySorted Z.le l ->
                           (StronglySorted Z.lt l <-> NoDup l)).
  { intros l Hl. split; [apply sorted_lt_nodup|].
    now apply sorted_le_nodup_lt. }
  destruct H as [H|H].
  - destruct (carga_y_limpia_hoja_ok _ _ _ H)
      as (i & cols & Hd & Hr & _ & ->).
    unfold fechas; cbn [filas columnas].
    split; [apply limpia_filas_index|].
    split; [apply limpia_filas_sorted|].
    split; [apply Hiff, limpia_filas_sorted|].
    split; [reflexivity|].
    split; [apply (limpia_filas_largo ExcelACsv.requeridas)|].
    exists i, ExcelACsv.requeridas, cols.
    split; [exact Hd|]. split; [left; now split|].
    apply limpia_filas_fechas.
  - destruct (carga_y_limpia_importacion_ok _ _ _ H) as (i & Hd & _ & ->).
    cbv zeta. rewrite combina_diesel_fechas, combina_diesel_index.
    unfold fechas; cbn [filas columnas].
    split.
    { unfold Actualiza2025.combina_diesel, rename; cbn [filas].
      rewrite length_map. apply limpia_filas_index. }
    split; [apply limpia_filas_sorted|].
    split; [apply Hiff, limpia_filas_sorted|].
    split; [reflexivity|].
    split.
    { unfold Actualiza2025.combina_diesel, rename; cbn [filas].
      apply Forall_map, Forall_forall. reflexivity. }
    exists i, Actualiza2025.requeridas,
      (map normaliza_col (columns (parse_header xls sheet i))).
    split; [exact Hd|]. split; [right; now split|].
    apply limpia_filas_fechas.
Qed.

End Invariante.

Lemma tabla_limpia_invariante_witness :
  exists t,
    @ExcelACsv.carga_y_limpia_hoja Ejemplo.pandas
      (Ejemplo.libro hoja_ejemplo) "IMPORTACION" = Ok t
    /\ map fst (filas t) = [0; 1; 2]
    /\ StronglySorted Z.le (fechas t)
    /\ fechas t = [10; 20; 30]%Z.
Proof.
  eexists. split; [reflexivity|].
  destruct (@tabla_limpia_invariante Ejemplo.pandas
              (Ejemplo.libro hoja_ejemplo) "IMPORTACION" _
              (or_introl eq_refl)) as (Hi & Hs & _).
  split; [exact Hi|]. split; [exact Hs | reflexivity].
Defined.

(** C6 as stated fails: the cleaner keeps both rows of a repeated date, so
    the dates of its table are not strictly ascending and there is more
    than one row for that date. *)
Lemma tabla_limpia_fecha_repetida :
  exists t,
    @ExcelACsv.carga_y_limpia_hoja Ejemplo.pandas
      (Ejemplo.libro hoja_repetida) "IMPORTACION" = Ok t
    /\ fechas t = [10; 20; 20]%Z
    /\ ~ StronglySorted Z.lt (fechas t)
    /\ ~ NoDup (fechas t).
Proof.
  eexists. split; [reflexivity|]. split; [reflexivity|].
  assert (Hnd : ~ NoDup [10; 20; 20]%Z).
  { intros Hnd. inversion Hnd as [|? ? _ Hnd']; subst.
    inversion Hnd' as [|? ? Hnotin _]; subst. apply Hnotin. now left. }
  split; [|exact Hnd].
  intros Hs. apply Hnd. now apply sorted_lt_nodup.
Qed.

(** ** The reshaper *)


Section Reshaper.

Context {pandas : Pandas}.

Import ExcelACsv.


End Reshaper.

(** ** The merger *)

Section Merger.

Implicit Types (ls rs : list (nat * Fila)) (d : Z).
















End Merger.

Section MergerFilas.



End MergerFilas.



(** ** The exporter and the round trip *)

Lemma append_vacio_r (s : string) : (s ++ "")%string = s.
Proof. induction s as [|c s IH]; simpl; [reflexivity | now rewrite IH]. Qed.

Lemma append_asoc (s t u : string) :
  ((s ++ t) ++ u)%string = (s ++ (t ++ u))%string.
Proof. induction s as [|c s IH]; simpl; [reflexivity | now rewrite IH]. Qed.

Lemma join_cons sep w w' ws :
  join sep (w :: w' :: ws) = (w ++ sep ++ join sep (w' :: ws))%string.
Proof. reflexivity. Qed.

Lemma join_vacio_cons w ws : join "" (w :: ws) = (w ++ join "" ws)%string.
Proof.
  destruct ws as [|w' ws]; [simpl; now rewrite append_vacio_r|].
  now rewrite join_cons.
Qed.

Lemma tiene_join_sep p sep ws :
  tiene p sep = false -> Forall (fun w => tiene p w = false) ws ->
  tiene p (join sep ws) = false.
Proof.
  intros Hsep. induction 1 as [|w ws Hw Hws IH]; [reflexivity|].
  destruct ws as [|w' ws']; [exact Hw|].
  rewrite join_cons, !tiene_app, Hw, Hsep. exact IH.
Qed.

Section SplitOn.

Variable c : ascii.

Lemma split_on_sin s : tiene (es_car c) s = false -> split_on c s = [s].
Proof.
  induction s as [|a s IH]; [reflexivity|].
  simpl. intros H. apply orb_false_iff in H as [Ha Hs].
  unfold es_car in Ha. now rewrite Ha, (IH Hs).
Qed.

Lemma split_on_app s t :
  tiene (es_car c) s = false ->
  split_on c (s ++ String c t) = s :: split_on c t.
Proof.
  induction s as [|a s IH]; intros H.
  - simpl. now rewrite Ascii.eqb_refl.
  - simpl in H. apply orb_false_iff in H as [Ha Hs].
    unfold es_car in Ha. cbn [append split_on]. now rewrite Ha, (IH Hs).
Qed.

Lemma split_on_join fs :
  fs <> [] -> Forall (fun f => tiene (es_car c) f = false) fs ->
  split_on c (join (String c EmptyString) fs) = fs.
Proof.
  intros Hne H. induction H as [|f fs Hf Hfs IH]; [congruence|].
  destruct fs as [|f' fs'].
  - now apply split_on_sin.
  - rewrite join_cons. cbn [append].
    rewrite split_on_app by exact Hf.
    rewrite IH; [reflexivity | discriminate].
Qed.

(** Lines without [c], each followed by [c]: the pieces are the lines and
    a last empty piece. *)
Lemma split_on_lineas ls :
  Forall (fun l => tiene (es_car c) l = false) ls ->
  split_on c (join "" (map (fun l => l ++ String c EmptyString)%string ls))
  = ls ++ [EmptyString].
Proof.
  induction 1 as [|l ls Hl Hls IH]; [reflexivity|].
  cbn [map]. rewrite join_vacio_cons, append_asoc. cbn [append].
  rewrite split_on_app by exact Hl. now rewrite IH.
Qed.

End SplitOn.

Lemma campo_plano s : tiene especial s = false -> campo s = s.
Proof. unfold campo. now intros ->. Qed.

Lemma map_campo_planos fs :
  Forall (fun f => tiene especial f = false) fs -> map campo fs = fs.
Proof.
  induction 1 as [|f fs Hf Hfs IH]; [reflexivity|].
  simpl. now rewrite campo_plano, IH.
Qed.

Lemma plano_sin_coma s :
  tiene especial s = false -> tiene (es_car ",") s = false.
Proof.
  apply tiene_weaken. intros a Ha. unfold es_car in Ha. unfold especial.
  now rewrite Ha.
Qed.

Lemma plano_sin_salto s :
  tiene especial s = false -> tiene (es_car (ascii_of_nat 10)) s = false.
Proof.
  apply tiene_weaken. intros a Ha. unfold es_car in Ha. unfold especial.
  rewrite Ha. now rewrite !orb_true_r.
Qed.

(** A line of plain fields has no line break and splits into its fields. *)
Lemma linea_planos fs :
  fs <> [] -> Forall (fun f => tiene especial f = false) fs ->
  tiene (es_car (ascii_of_nat 10)) (join "," (map campo fs)) = false
  /\ split_on "," (join "," (map campo fs)) = fs.
Proof.
  intros Hne Hfs. rewrite map_campo_planos by exact Hfs. split.
  - apply tiene_join_sep; [reflexivity|].
    eapply Forall_impl; [|exact Hfs]. apply plano_sin_salto.
  - apply split_on_join; [exact Hne|].
    eapply Forall_impl; [|exact Hfs]. apply plano_sin_coma.
Qed.

Section RoundTrip.

Context {pandas : Pandas}.

Variable lee_fecha : string -> option Z.
Variable lee_num : string -> option num.

Lemma csv_fila_planos t f :
  fila_fiel lee_fecha lee_num t f ->
  Forall (fun s => tiene especial s = false) (csv_fila t f).
Proof.
  intros (Hd & _ & Hv). unfold csv_fila. constructor; [exact Hd|].
  apply Forall_map. eapply Forall_impl; [|exact Hv].
  intros [j [x|]]; simpl; [now intros (H & _) | reflexivity].
Qed.

Lemma lee_valores (cols : nat -> list (option num))
  (jvs : list (nat * option num)) :
  Forall (fun jx => valor_fiel lee_num (cols (fst jx)) (snd jx)) jvs ->
  traverse (lee_valor lee_num)
    (map (fun jx => csv_valor (cols (fst jx)) (snd jx)) jvs)
  = Some (map snd jvs).
Proof.
  induction 1 as [|[j a] jvs Ha Hvs IH]; [reflexivity|].
  cbn [map traverse fst snd]. rewrite IH.
  destruct a as [x|]; simpl in *; [|reflexivity].
  destruct Ha as (_ & Hne & Hx). unfold lee_valor.
  destruct (csv_num (cols j) x); [congruence|]. simpl. now rewrite Hx.
Qed.

Lemma lee_fila_csv t f :
  fila_fiel lee_fecha lee_num t f ->
  lee_fila lee_fecha lee_num (join "," (map campo (csv_fila t f)))
  = Some f.
Proof.
  intros Hf. unfold lee_fila.
  destruct (linea_planos (csv_fila t f)) as [_ ->];
    [discriminate | now apply csv_fila_planos |].
  destruct Hf as (_ & Hd & Hv). unfold csv_fila.
  rewrite Hd, (lee_valores _ _ Hv), range_index_snd. now destruct f.
Qed.

Lemma lee_filas_csv t (fs : list (nat * Fila)) :
  Forall (fun r => fila_fiel lee_fecha lee_num t (snd r)) fs ->
  traverse (lee_fila lee_fecha lee_num)
    (map (fun r => join "," (map campo (csv_fila t (snd r)))) fs)
  = Some (map snd fs).
Proof.
  induction 1 as [|r fs Hr Hfs IH]; [reflexivity|].
  cbn [map traverse]. now rewrite (lee_fila_csv _ _ Hr), IH.
Qed.

(** X17. The text that [to_csv] writes for a table is a header line with
    "fecha" and the column names, then one line per row in the order of the
    table, without index column, comma-separated, a missing value being an
    empty field.  When the column names need no quoting and the text of
    every date and of every number of the table is read back by the reader
    as that date and that number, splitting the text at its line ends and
    its commas gives back the column names and the rows of the table in
    their order.  What pandas writes for a float64 or a datetime64, and
    what a reader makes of it, is not settled here. *)
Theorem to_csv_ida_y_vuelta (t : Tabla)
  (Hcols : Forall (fun c => tiene especial c = false) (columnas t))
  (Hfilas : Forall (fun r => fila_fiel lee_fecha lee_num t (snd r))
              (filas t)) :
  lee_csv lee_fecha lee_num (to_csv t)
  = Some ("fecha" :: columnas t, map snd (filas t)).
Proof.
  set (h := join "," (map campo ("fecha" :: columnas t))).
  set (ls := map (fun r => join "," (map campo (csv_fila t (snd r))))
               (filas t)).
  assert (Hcsv : to_csv t
                 = join "" (map (fun l => l ++ nl)%string (h :: ls))).
  { unfold to_csv, linea, ls, h. cbn [map]. now rewrite map_map. }
  assert (Hh : tiene (es_car (ascii_of_nat 10)) h = false
               /\ split_on "," h = "fecha" :: columnas t).
  { apply linea_planos; [discriminate|]. now constructor. }
  assert (Hls : Forall (fun l => tiene (es_car (ascii_of_nat 10)) l = false)
                  ls).
  { unfold ls. apply Forall_map. eapply Forall_impl; [|exact Hfilas].
    intros r Hr. apply linea_planos; [discriminate|].
    now apply (csv_fila_planos _ _ Hr). }
  unfold lee_csv. rewrite Hcsv. unfold nl.
  rewrite split_on_lineas by (constructor; [apply Hh | exact Hls]).
  rewrite rev_app_distr. cbn [rev app].
  rewrite rev_app_distr, rev_involutive. cbn [rev app].
  destruct Hh as [_ ->]. unfold ls.
  now rewrite (lee_filas_csv t _ Hfilas).
Qed.

End RoundTrip.

Lemma to_csv_ida_y_vuelta_witness :
  @ExcelACsv.carga_y_limpia_hoja Ejemplo.pandas
    (Ejemplo.libro hoja_ejemplo) "IMPORTACION" = Ok tabla_ejemplo
  /\ lee_csv Ejemplo.lee_Z Ejemplo.lee_Q (@to_csv Ejemplo.pandas tabla_ejemplo)
     = Some ("fecha" :: columnas tabla_ejemplo, map snd (filas tabla_ejemplo)).
Proof.
  split; [reflexivity|].
  apply (@to_csv_ida_y_vuelta Ejemplo.pandas Ejemplo.lee_Z Ejemplo.lee_Q).
  - repeat constructor.
  - unfold fila_fiel, valor_fiel.
    repeat (constructor || split); try reflexivity; discriminate.
Defined.

(** * Further properties of the scripts *)

(** ** The normalizer depends on the words of a label only *)

Lemma split_cons c s :
  split (String c s) =
  if is_space c then split s
  else if empieza_palabra s
       then match split s with
            | w :: ws => String c w :: ws
            | [] => [String c EmptyString]
            end
       else String c EmptyString :: split s.
Proof.
  cbn [split]. destruct (is_space c); [reflexivity|].
  destruct s as [|c' s']; [reflexivity|].
  cbn [empieza_palabra]. now destruct (is_space c').
Qed.

Lemma split_lstrip s : split (lstrip s) = split s.
Proof.
  induction s as [|c s IH]; [reflexivity|].
  cbn [lstrip]. destruct (is_space c) eqn:Hc; [|reflexivity].
  now rewrite IH, (split_cons c s), Hc.
Qed.

Lemma rstrip_cabeza s :
  empieza_palabra (rstrip s) = empieza_palabra s.
Proof.
  destruct s as [|c s]; [reflexivity|].
  cbn [rstrip]. destruct (is_space c) eqn:Hc; cbn [andb].
  - destruct (is_empty (rstrip s)); cbn [empieza_palabra];
      now rewrite ?Hc.
  - reflexivity.
Qed.

Lemma split_rstrip s : split (rstrip s) = split s.
Proof.
  induction s as [|c s IH]; [reflexivity|].
  cbn [rstrip]. destruct (is_space c) eqn:Hc; cbn [andb].
  - destruct (rstrip s) as [|c' r] eqn:Hr; cbn [is_empty].
    + rewrite (split_cons c s), Hc. now rewrite <- IH.
    + rewrite (split_cons c (String c' r)), (split_cons c s), Hc. exact IH.
  - rewrite (split_cons c (rstrip s)), (split_cons c s), Hc.
    now rewrite rstrip_cabeza, IH.
Qed.

Lemma split_strip s : split (strip s) = split s.
Proof. unfold strip. now rewrite split_rstrip, split_lstrip. Qed.

Lemma split_replace_nl s :
  split (replace nl " " s) = split s
  /\ empieza_palabra (replace nl " " s) = empieza_palabra s.
Proof.
  unfold replace, nl; cbn [is_empty].
  induction s as [|c s [IH1 IH2]]; [now split|].
  cbn [replace_from]. rewrite startswith_char.
  destruct (Ascii.eqb (ascii_of_nat 10) c) eqn:E.
  - apply Ascii.eqb_eq in E. subst c.
    cbn [String.length Nat.sub append]. split.
    + rewrite (split_cons " " (replace_from _ _ _ _)),
        (split_cons (ascii_of_nat 10) s).
      exact IH1.
    + reflexivity.
  - split; [|reflexivity].
    rewrite (split_cons c (replace_from _ _ _ _)), (split_cons c s).
    now rewrite IH1, IH2.
Qed.

Lemma normaliza_str_es_join s :
  normaliza_str s = join " " (map lower (split s)).
Proof.
  unfold normaliza_str.
  rewrite split_strip. destruct (split_replace_nl s) as [-> _].
  apply lower_join.
Qed.

(** X1. The normalized label is the words of the label, lower-cased and
    joined by single spaces: replacing the line breaks and stripping the
    ends add nothing to what [split] does.  Hence two labels have the same
    normalized label exactly when they have the same words up to case. *)
Theorem normaliza_str_palabras (s1 s2 : string) :
  normaliza_str s1 = join " " (map lower (split s1))
  /\ (normaliza_str s1 = normaliza_str s2
      <-> map lower (split s1) = map lower (split s2)).
Proof.
  split; [apply normaliza_str_es_join|].
  rewrite !normaliza_str_es_join. split; [|now intros ->].
  intros H. apply (f_equal split) in H.
  rewrite !split_join in H; [exact H| |];
    apply Forall_map; (eapply Forall_impl; [|apply split_palabras]);
    apply palabra_lower.
Qed.

(** X2. A normalized label is canonical: it is made of non-empty words
    without whitespace or capitals, one space apart, so that stripping it
    or lower-casing it changes nothing; it is empty exactly when the label
    has no word. *)
Theorem normaliza_str_canonica (s : string) :
  (exists ws, Forall palabra ws /\ map lower ws = ws
              /\ normaliza_str s = join " " ws)
  /\ strip (normaliza_str s) = normaliza_str s
  /\ lower (normaliza_str s) = normaliza_str s
  /\ (normaliza_str s = EmptyString <-> split s = []).
Proof.
  destruct (normaliza_str_forma s) as (ws & Hws & Hlow & Hs).
  split; [now exists ws|].
  split; [rewrite Hs; now apply strip_join|].
  split; [rewrite Hs, lower_join; now rewrite Hlow|].
  rewrite normaliza_str_es_join. split.
  - intros H. destruct (split s) as [|w l] eqn:E; [reflexivity|].
    exfalso. pose proof (split_palabras s) as Hp. rewrite E in Hp.
    inversion Hp as [|? ? Hw _]; subst.
    apply (join_no_vacio (lower w) (map lower l));
      [now apply palabra_lower | exact H].
  - now intros ->.
Qed.

(** ** The locator, the normalizer and the renaming agree on the date *)

Section FechaEncabezado.

Context {pandas : Pandas}.

Lemma es_fecha_normaliza s :
  es_fecha (VStr s) = true -> normaliza_str s = "fecha".
Proof.
  unfold es_fecha; cbn [astype_str]. intros H. apply String.eqb_eq in H.
  assert (Hw : palabra (strip s)).
  { split.
    - intros E. rewrite E in H. discriminate.
    - rewrite <- tiene_space_lower, H. reflexivity. }
  destruct (palabra_inv _ Hw) as (c & u & E & Hc & Hu).
  rewrite normaliza_str_es_join.
  rewrite <- split_strip, E, (split_una c u Hc Hu), <- E.
  exact H.
Qed.

(** X3. A text cell that the header locator accepts as the date header
    normalizes to the required label "fecha", and the defensive renaming
    leaves that label alone: when the labels of the frame contain such a
    cell, "fecha" is not among the missing columns of either cleaner. *)
Theorem fecha_localizada_no_falta (s : string) (cols : list pyval)
  (Hs : es_fecha (VStr s) = true) (Hin : In (VStr s) cols) :
  normaliza_col (VStr s) = VStr "fecha"
  /\ ~ In "fecha" (faltantes Actualiza2025.requeridas
                     (map normaliza_col cols))
  /\ (forall cols',
         ExcelACsv.renombra (map normaliza_col cols) = Ok cols' ->
         ~ In "fecha" (faltantes ExcelACsv.requeridas cols')).
Proof.
  assert (Hn : normaliza_col (VStr s) = VStr "fecha")
    by (cbn [normaliza_col]; now rewrite es_fecha_normaliza).
  assert (Hc : In (VStr "fecha") (map normaliza_col cols)).
  { rewrite <- Hn. now apply in_map. }
  split; [exact Hn|]. split.
  - rewrite faltantes_In. tauto.
  - intros cols' Hr. rewrite faltantes_In.
    unfold ExcelACsv.renombra in Hr.
    destruct (forallb ExcelACsv.es_str (map normaliza_col cols));
      [|discriminate].
    injection Hr as <-. intros [_ Hnot]. apply Hnot.
    apply in_map_iff. now exists (VStr "fecha").
Qed.

Lemma detecta_header_desde_suma k df :
  detecta_header_desde k df =
  match detecta_header df with
  | Ok i => Ok (k + i)
  | Error e => Error e
  end.
Proof.
  unfold detecta_header. revert k.
  induction df as [|r df IH]; intros k; [reflexivity|].
  cbn [detecta_header_desde]. destruct (existsb es_fecha r).
  - f_equal. lia.
  - rewrite (IH (S k)), (IH 1).
    destruct (detecta_header_desde 0 df); [f_equal; lia | reflexivity].
Qed.

(** X4. The index that the locator returns is the position of a row of the
    sheet; rows added below the sheet do not change it, and banner rows
    without the header word added above shift it by their number.  A sheet
    without rows has no header. *)
Theorem detecta_header_filas_vecinas (arriba df abajo : list (list pyval))
  (i : nat)
  (Harriba : forall row, In row arriba -> ~ fila_con_fecha row)
  (Hdf : detecta_header df = Ok i) :
  i < List.length df
  /\ detecta_header (df ++ abajo) = Ok i
  /\ detecta_header (arriba ++ df ++ abajo) = Ok (List.length arriba + i)
  /\ detecta_header [] = Error HeaderNotFound.
Proof.
  assert (Habajo : detecta_header (df ++ abajo) = Ok i).
  { apply detecta_header_desde_ok. exists i. split; [reflexivity|].
    apply detecta_header_desde_ok in Hdf as (n & Hn & (row & Hr & Hf) & Hmin).
    simpl in Hn. subst n. split.
    - exists row. split; [|exact Hf].
      rewrite nth_error_app1; [exact Hr|].
      apply nth_error_Some. congruence.
    - intros j row' Hj Hnth. apply (Hmin j row' Hj).
      rewrite nth_error_app1 in Hnth; [exact Hnth|].
      assert (i < List.length df) by (apply nth_error_Some; congruence).
      lia. }
  split; [|split; [exact Habajo|split; [|reflexivity]]].
  - apply detecta_header_desde_ok in Hdf as (n & Hn & (row & Hr & _) & _).
    simpl in Hn. subst n. apply nth_error_Some. congruence.
  - induction arriba as [|r arriba IH]; [exact Habajo|].
    unfold detecta_header. cbn [app detecta_header_desde List.length].
    assert (Hr : existsb es_fecha r = false).
    { apply fila_sin_fecha_existsb. apply Harriba. now left. }
    rewrite Hr, detecta_header_desde_suma, IH.
    + f_equal.
    + intros row Hrow. apply Harriba. now right.
Qed.

End FechaEncabezado.

Lemma fecha_localizada_no_falta_witness :
  @normaliza_col (VStr " Fecha ") = VStr "fecha"
  /\ ~ In "fecha"
       (faltantes Actualiza2025.requeridas
          (map normaliza_col [VStr "Importaciones"; VStr " Fecha "])).
Proof.
  destruct (@fecha_localizada_no_falta Ejemplo.pandas " Fecha "
              [VStr "Importaciones"; VStr " Fecha "] eq_refl
              (or_intror (or_introl eq_refl))) as (H1 & H2 & _).
  now split.
Defined.

Lemma detecta_header_filas_vecinas_witness :
  @detecta_header Ejemplo.pandas
    ([[VStr "Importaciones"]; [VNaN]]
     ++ [[VInt 1]; [VStr "FECHA"; VStr "Diesel"]] ++ [[VDate 5; VInt 3]])
  = Ok 3.
Proof.
  refine (proj1 (proj2 (proj2
    (@detecta_header_filas_vecinas Ejemplo.pandas
       [[VStr "Importaciones"]; [VNaN]]
       [[VInt 1]; [VStr "FECHA"; VStr "Diesel"]] [[VDate 5; VInt 3]] 1
       _ eq_refl)))).
  intros row [<-|[<-|[]]] (v & [<-|[]] & Hv); discriminate.
Defined.

(** ** The defensive renaming *)

(** X5. The renaming of a label is one of the three canonical product
    labels or the label itself; renaming twice is renaming once; and
    "fecha" is the image of "fecha" only, so the renaming neither makes nor
    hides a date column. *)
Theorem renombre_idempotente (c : string) :
  (ExcelACsv.renombre c = "gasolina superior"
   \/ ExcelACsv.renombre c = "gasolina regular"
   \/ ExcelACsv.renombre c = "diesel alto azufre"
   \/ ExcelACsv.renombre c = c)
  /\ ExcelACsv.renombre (ExcelACsv.renombre c) = ExcelACsv.renombre c
  /\ (ExcelACsv.renombre c = "fecha" <-> c = "fecha").
Proof.
  assert (Hcases :
            ExcelACsv.renombre c = "gasolina superior"
            \/ ExcelACsv.renombre c = "gasolina regular"
            \/ ExcelACsv.renombre c = "diesel alto azufre"
            \/ (ExcelACsv.renombre c = c
                /\ ExcelACsv.renombre (ExcelACsv.renombre c)
                   = ExcelACsv.renombre c)).
  { unfold ExcelACsv.renombre at 1 2 3 4.
    destruct (startswith "gasolina super" c) eqn:E1; [tauto|].
    destruct (startswith "gasolina s" c && contains "rior" c) eqn:E2;
      [tauto|].
    destruct (startswith "gasolina regular" c) eqn:E3; [tauto|].
    destruct (startswith "diesel alto" c) eqn:E4; [tauto|].
    do 3 right. split; [reflexivity|].
    assert (Hc : ExcelACsv.renombre c = c)
      by (unfold ExcelACsv.renombre; now rewrite E1, E2, E3, E4).
    now rewrite !Hc. }
  destruct Hcases as [H|[H|[H|[H Hi]]]].
  - split; [tauto|]. rewrite H. split; [reflexivity|].
    split; [discriminate|]. intros ->. discriminate.
  - split; [tauto|]. rewrite H. split; [reflexivity|].
    split; [discriminate|]. intros ->. discriminate.
  - split; [tauto|]. rewrite H. split; [reflexivity|].
    split; [discriminate|]. intros ->. discriminate.
  - split; [tauto|]. split; [exact Hi|]. now rewrite H.
Qed.

Lemma renombre_requeridas c :
  In c ExcelACsv.requeridas -> ExcelACsv.renombre c = c.
Proof.
  intros [<-|[<-|[<-|[<-|[]]]]]; reflexivity.
Qed.

Lemma renombra_Ok cols cols' :
  ExcelACsv.renombra cols = Ok cols' ->
  forallb ExcelACsv.es_str cols = true
  /\ cols' = map (fun l => match l with
                           | VStr c => VStr (ExcelACsv.renombre c)
                           | _ => l
                           end) cols.
Proof.
  unfold ExcelACsv.renombra.
  destruct (forallb ExcelACsv.es_str cols); [|discriminate].
  intros [= <-]. now split.
Qed.

(** X6. The renaming keeps the number of columns and never loses a
    required column: a required label present before the renaming is
    present after it, so every label missing after the renaming was
    missing before. *)
Theorem renombra_no_pierde_requeridas (cols cols' : list pyval)
  (H : ExcelACsv.renombra cols = Ok cols') :
  List.length cols' = List.length cols
  /\ (forall c, In c ExcelACsv.requeridas -> In (VStr c) cols ->
                In (VStr c) cols')
  /\ incl (faltantes ExcelACsv.requeridas cols')
       (faltantes ExcelACsv.requeridas cols).
Proof.
  destruct (renombra_Ok _ _ H) as [_ ->].
  assert (Hkeep : forall c, In c ExcelACsv.requeridas -> In (VStr c) cols ->
                            In (VStr c)
                              (map (fun l => match l with
                                             | VStr c => VStr (ExcelACsv.renombre c)
                                             | _ => l
                                             end) cols)).
  { intros c Hc Hin. apply in_map_iff. exists (VStr c).
    split; [|exact Hin]. now rewrite renombre_requeridas. }
  split; [apply length_map|]. split; [exact Hkeep|].
  intros c Hc. apply faltantes_In in Hc as [Hreq Hnot].
  apply faltantes_In. split; [exact Hreq|].
  intros Hin. apply Hnot. now apply Hkeep.
Qed.

Lemma renombra_no_pierde_requeridas_witness :
  List.length [VStr "fecha"; VStr "gasolina super 95"; VStr "total"] = 3
  /\ incl (faltantes ExcelACsv.requeridas
             [VStr "fecha"; VStr "gasolina superior"; VStr "total"])
       (faltantes ExcelACsv.requeridas
          [VStr "fecha"; VStr "gasolina super 95"; VStr "total"]).
Proof.
  destruct (renombra_no_pierde_requeridas
              [VStr "fecha"; VStr "gasolina super 95"; VStr "total"]
              [VStr "fecha"; VStr "gasolina superior"; VStr "total"]
              eq_refl) as (_ & _ & H).
  split; [reflexivity | exact H].
Defined.

(** ** When the cleaners succeed and how they fail *)

Lemma es_str_normaliza_col l :
  ExcelACsv.es_str (normaliza_col l) = ExcelACsv.es_str l.
Proof. now destruct l. Qed.

Lemma posiciones_desde_length k c cols :
  List.length (posiciones_desde k c cols)
  = List.length (filter (es_etiqueta c) cols).
Proof.
  revert k; induction cols as [|l cols IH]; intros k; [reflexivity|].
  cbn [posiciones_desde filter]. destruct (es_etiqueta c l); simpl;
    now rewrite IH.
Qed.

Lemma selecciona_Ok req df :
  (exists sel, selecciona req df = Ok sel)
  <-> forall c, In c req ->
                List.length (filter (es_etiqueta c) (columns df)) = 1.
Proof.
  unfold selecciona.
  destruct (forallb _ req) eqn:E.
  - split; [|intros _; eexists; reflexivity].
    intros _ c Hc. rewrite forallb_forall in E. specialize (E c Hc).
    apply Nat.eqb_eq in E. unfold posiciones in E.
    now rewrite posiciones_desde_length in E.
  - split; [intros (sel & H); discriminate|].
    intros H. exfalso.
    assert (Ht : forallb (fun c => Nat.eqb (List.length
                                    (posiciones c (columns df))) 1) req
                 = true).
    { apply forallb_forall. intros c Hc. apply Nat.eqb_eq.
      unfold posiciones. rewrite posiciones_desde_length. now apply H. }
    congruence.
Qed.

Lemma selecciona_Error req df e :
  selecciona req df = Error e -> e = OtherError.
Proof.
  unfold selecciona. destruct (forallb _ req); [discriminate|].
  now intros [= <-].
Qed.

Lemma una_columna_presente c cols :
  List.length (filter (es_etiqueta c) cols) = 1 -> In (VStr c) cols.
Proof.
  intros H. destruct (filter (es_etiqueta c) cols) as [|l ls] eqn:E;
    [discriminate|].
  assert (Hl : In l (filter (es_etiqueta c) cols)) by (rewrite E; now left).
  apply filter_In in Hl as [Hin Hl]. apply es_etiqueta_true in Hl.
  now subst l.
Qed.

Lemma faltantes_vacio req cols :
  (forall c, In c req -> In (VStr c) cols) -> faltantes req cols = [].
Proof.
  intros H. destruct (faltantes req cols) as [|c l] eqn:E; [reflexivity|].
  assert (Hc : In c (faltantes req cols)) by (rewrite E; now left).
  apply faltantes_In in Hc as [Hreq Hnot]. exfalso. now apply Hnot, H.
Qed.

Section Resultados.

Context {pandas : Pandas}.

(** X7. In excel_a_csv a column label that is not text (a numeric or a
    date header cell, which the normalizer passes through) makes the
    cleaner raise in the renaming loop, before any column is checked:
    whatever else the sheet holds, the run ends with an exception that is
    neither HeaderNotFound nor MissingColumns. *)
Theorem etiqueta_no_textual_aborta (xls : ExcelFile) (sheet : string)
  (i : nat)
  (Hd : detecta_header (parse_raw xls sheet) = Ok i)
  (Hl : existsb (fun l => negb (ExcelACsv.es_str l))
          (columns (parse_header xls sheet i)) = true) :
  ExcelACsv.carga_y_limpia_hoja xls sheet = Error OtherError.
Proof.
  unfold ExcelACsv.carga_y_limpia_hoja. rewrite Hd. cbn [bind].
  unfold ExcelACsv.renombra.
  replace (forallb ExcelACsv.es_str
             (map normaliza_col (columns (parse_header xls sheet i))))
    with false; [reflexivity|].
  symmetry. apply existsb_exists in Hl as (l & Hin & Hl).
  apply negb_true_iff in Hl.
  destruct (forallb _ _) eqn:E; [|reflexivity].
  rewrite forallb_forall in E.
  specialize (E (normaliza_col l) (in_map _ _ _ Hin)).
  rewrite es_str_normaliza_col in E. congruence.
Qed.

(** X8. Once the header row is found (and, in excel_a_csv, the labels are
    all text), a cleaner returns a table exactly when every required label
    is the label of exactly one column.  When no required label is missing
    but one of them is carried by two columns, the run ends with an
    exception of pandas, not with MissingColumns. *)
Theorem limpieza_exito_una_columna_por_etiqueta (xls : ExcelFile)
  (sheet : string) (i : nat)
  (Hd : detecta_header (parse_raw xls sheet) = Ok i) :
  (forall cols,
      ExcelACsv.renombra
        (map normaliza_col (columns (parse_header xls sheet i))) = Ok cols ->
      ((exists t, ExcelACsv.carga_y_limpia_hoja xls sheet = Ok t)
       <-> forall c, In c ExcelACsv.requeridas ->
                     List.length (filter (es_etiqueta c) cols) = 1)
      /\ (faltantes ExcelACsv.requeridas cols = [] ->
          (exists c, In c ExcelACsv.requeridas
                     /\ List.length (filter (es_etiqueta c) cols) <> 1) ->
          ExcelACsv.carga_y_limpia_hoja xls sheet = Error OtherError))
  /\ (let cols := map normaliza_col (columns (parse_header xls sheet i)) in
      ((exists t, Actualiza2025.carga_y_limpia_importacion xls sheet = Ok t)
       <-> forall c, In c Actualiza2025.requeridas ->
                     List.length (filter (es_etiqueta c) cols) = 1)
      /\ (faltantes Actualiza2025.requeridas cols = [] ->
          (exists c, In c Actualiza2025.requeridas
                     /\ List.length (filter (es_etiqueta c) cols) <> 1) ->
          Actualiza2025.carga_y_limpia_importacion xls sheet
          = Error OtherError)).
Proof.
  assert (Hgen : forall req cols rws (k : list (list pyval) -> Tabla)
                        (sheet' : string),
             let r := match faltantes req cols with
                      | (_ :: _) as falt => Error (MissingColumns sheet' falt)
                      | [] => sel <- selecciona req (mkDataFrame cols rws) ;;
                              Ok (k sel)
                      end in
             ((exists t, r = Ok t)
              <-> forall c, In c req ->
                            List.length (filter (es_etiqueta c) cols) = 1)
             /\ (faltantes req cols = [] ->
                 (exists c, In c req
                            /\ List.length (filter (es_etiqueta c) cols) <> 1)
                 -> r = Error OtherError)).
  { intros req cols rws k sheet' r. subst r.
    pose proof (selecciona_Ok req (mkDataFrame cols rws)) as Hsel.
    cbn [columns] in Hsel. split.
    - split.
      + intros (t & Ht). apply Hsel.
        destruct (faltantes req cols); [|discriminate].
        destruct (selecciona req _) as [sel|]; [now exists sel|discriminate].
      + intros Huna.
        rewrite faltantes_vacio
          by (intros c Hc; now apply una_columna_presente, Huna).
        apply Hsel in Huna as (sel & ->). cbn [bind]. eexists; reflexivity.
    - intros -> (c & Hc & Hne).
      destruct (selecciona req _) as [sel|e] eqn:E.
      + exfalso. apply Hne.
        apply (proj1 Hsel); [now exists sel | exact Hc].
      + apply selecciona_Error in E. now subst e. }
  split.
  - intros cols Hr. unfold ExcelACsv.carga_y_limpia_hoja.
    rewrite Hd. cbn [bind]. rewrite Hr. cbn [bind columns rows].
    apply (Hgen ExcelACsv.requeridas cols _
             (fun sel => mkTabla (tl ExcelACsv.requeridas)
                           (limpia_filas sel))
             sheet).
  - cbv zeta. unfold Actualiza2025.carga_y_limpia_importacion.
    rewrite Hd. cbn [bind columns rows].
    apply (Hgen Actualiza2025.requeridas _ _
             (fun sel => Actualiza2025.combina_diesel
                           (dtype_columna 2 sel) (dtype_columna 3 sel)
                           (mkTabla (tl Actualiza2025.requeridas)
                              (limpia_filas sel)))
             sheet).
Qed.

End Resultados.

Lemma etiqueta_no_textual_aborta_witness :
  @ExcelACsv.carga_y_limpia_hoja Ejemplo.pandas
    (Ejemplo.libro hoja_con_anio) "IMPORTACION" = Error OtherError.
Proof.
  exact (@etiqueta_no_textual_aborta Ejemplo.pandas
           (Ejemplo.libro hoja_con_anio) "IMPORTACION" 0 eq_refl eq_refl).
Defined.

Lemma limpieza_exito_una_columna_por_etiqueta_witness :
  @ExcelACsv.carga_y_limpia_hoja Ejemplo.pandas
    (Ejemplo.libro hoja_dos_superior) "IMPORTACION" = Error OtherError.
Proof.
  destruct (@limpieza_exito_una_columna_por_etiqueta Ejemplo.pandas
              (Ejemplo.libro hoja_dos_superior) "IMPORTACION" 0 eq_refl)
    as [H _].
  destruct (H _ eq_refl) as [_ Hdup].
  apply Hdup; [reflexivity|].
  exists "gasolina superior". split; [simpl; tauto | discriminate].
Defined.

Lemma faltantes_propiedades req cols :
  NoDup req ->
  incl (faltantes req cols) req /\ NoDup (faltantes req cols).
Proof.
  intros Hnd. split.
  - intros c Hc. now apply faltantes_In in Hc.
  - now apply NoDup_filter.
Qed.

Lemma requeridas_nodup :
  NoDup ExcelACsv.requeridas /\ NoDup Actualiza2025.requeridas.
Proof.
  split; repeat constructor; simpl; intuition discriminate.
Qed.

Section Errores.

Context {pandas : Pandas}.

(** X9. What an error of a cleaner says.  [MissingColumns] carries the
    name of the sheet that was being read and a list without repetition of
    required labels, not empty, and is raised only after the header row
    was found; and [HeaderNotFound] is raised exactly when the locator
    finds no header row, whatever the rest of the workbook holds. *)
Theorem errores_de_limpieza (xls : ExcelFile) (sheet : string) :
  (forall s l,
      ExcelACsv.carga_y_limpia_hoja xls sheet = Error (MissingColumns s l) ->
      s = sheet /\ l <> [] /\ incl l ExcelACsv.requeridas /\ NoDup l
      /\ exists i, detecta_header (parse_raw xls sheet) = Ok i)
  /\ (forall s l,
         Actualiza2025.carga_y_limpia_importacion xls sheet
         = Error (MissingColumns s l) ->
         s = sheet /\ l <> [] /\ incl l Actualiza2025.requeridas /\ NoDup l
         /\ exists i, detecta_header (parse_raw xls sheet) = Ok i)
  /\ (ExcelACsv.carga_y_limpia_hoja xls sheet = Error HeaderNotFound
      <-> detecta_header (parse_raw xls sheet) = Error HeaderNotFound)
  /\ (Actualiza2025.carga_y_limpia_importacion xls sheet
      = Error HeaderNotFound
      <-> detecta_header (parse_raw xls sheet) = Error HeaderNotFound).
Proof.
  destruct requeridas_nodup as [Hn1 Hn2].
  unfold ExcelACsv.carga_y_limpia_hoja,
    Actualiza2025.carga_y_limpia_importacion.
  destruct (detecta_header (parse_raw xls sheet)) as [i|e] eqn:Hd;
    cbn [bind columns rows].
  - assert (Hsel : forall req df (k : list (list pyval) -> Tabla) e,
               (sel <- selecciona req df ;; Ok (k sel)) = Error e ->
               e = OtherError).
    { intros req df k e. destruct (selecciona req df) eqn:E; cbn [bind];
        [discriminate|].
      intros [= <-]. now apply selecciona_Error in E. }
    split; [|split; [|split]].
    + intros s l.
      destruct (ExcelACsv.renombra _) as [cols|e] eqn:Hr; cbn [bind].
      * cbn [columns rows].
        destruct (faltantes ExcelACsv.requeridas cols) as [|c f] eqn:Hf.
        -- intros H. apply Hsel in H. discriminate.
        -- intros [= <- <-].
           destruct (faltantes_propiedades ExcelACsv.requeridas cols Hn1)
             as [Hi Hnd].
           rewrite Hf in Hi, Hnd.
           repeat split; try assumption; [discriminate | now exists i].
      * unfold ExcelACsv.renombra in Hr.
        destruct (forallb _ _); [discriminate|].
        injection Hr as <-. discriminate.
    + intros s l.
      destruct (faltantes Actualiza2025.requeridas _) as [|c f] eqn:Hf.
      * intros H. apply Hsel in H. discriminate.
      * intros [= <- <-].
        destruct (faltantes_propiedades Actualiza2025.requeridas
                    (map normaliza_col (columns (parse_header xls sheet i)))
                    Hn2) as [Hi Hnd].
        rewrite Hf in Hi, Hnd.
        repeat split; try assumption; [discriminate | now exists i].
    + split; [|discriminate].
      destruct (ExcelACsv.renombra _) as [cols|e] eqn:Hr; cbn [bind].
      * cbn [columns rows].
        destruct (faltantes ExcelACsv.requeridas cols); [|discriminate].
        intros H. apply Hsel in H. discriminate.
      * unfold ExcelACsv.renombra in Hr.
        destruct (forallb _ _); [discriminate|].
        injection Hr as <-. discriminate.
    + split; [|discriminate].
      destruct (faltantes Actualiza2025.requeridas _); [|discriminate].
      intros H. apply Hsel in H. discriminate.
  - assert (He : e = HeaderNotFound).
    { destruct (proj1 (detecta_header_desde_error 0 _ e) Hd) as [-> _].
      reflexivity. }
    subst e. repeat split; try discriminate; reflexivity.
Qed.

Lemma sin_fechas_validas col (l : list (list pyval)) :
  (forall r, In r l -> to_datetime col (hd VNaN r) = None) ->
  flat_map (fun r => match to_datetime col (hd VNaN r) with
                     | Some d => [d]
                     | None => []
                     end) l = [].
Proof.
  induction l as [|r l IH]; intros H; [reflexivity|].
  cbn [flat_map]. rewrite (H r) by now left.
  apply IH. intros r' Hr'. apply H. now right.
Qed.

(** X10. A table returned by the cleaner of excel_a_csv has as many rows
    as the sheet has rows whose date cell parses, hence no more rows than
    the sheet has below its header; it has no row exactly when no date cell
    parses, and then the run still succeeds: a sheet with a header and no
    dated row gives an empty table, not an error. *)
Theorem tabla_limpia_numero_de_filas (xls : ExcelFile) (sheet : string)
  (t : Tabla) (H : ExcelACsv.carga_y_limpia_hoja xls sheet = Ok t) :
  exists i cols,
    detecta_header (parse_raw xls sheet) = Ok i
    /\ ExcelACsv.renombra
         (map normaliza_col (columns (parse_header xls sheet i))) = Ok cols
    /\ let sel := map (proyecta ExcelACsv.requeridas cols)
                    (rows (parse_header xls sheet i)) in
       List.length (filas t) = List.length (fechas_validas sel)
       /\ List.length (filas t)
          <= List.length (rows (parse_header xls sheet i))
       /\ (filas t = [] <->
           forall r, In r sel ->
                     to_datetime (col_fecha sel) (hd VNaN r) = None).
Proof.
  destruct (carga_y_limpia_hoja_ok _ _ _ H) as (i & cols & Hd & Hr & _ & ->).
  exists i, cols. split; [exact Hd|]. split; [exact Hr|].
  cbn [filas].
  set (sel := map (proyecta ExcelACsv.requeridas cols)
                (rows (parse_header xls sheet i))).
  assert (Hlen : List.length (limpia_filas sel)
                 = List.length (fechas_validas sel)).
  { rewrite <- (Permutation_length (limpia_filas_fechas sel)).
    now rewrite length_map. }
  assert (Hle : forall col l,
             List.length
               (flat_map (fun r => match to_datetime col (hd VNaN r) with
                                   | Some d => [d]
                                   | None => []
                                   end) l) <= List.length l).
  { intros col l. induction l as [|r l IH]; [simpl; lia|].
    cbn [flat_map]. rewrite length_app.
    destruct (to_datetime col (hd VNaN r)); simpl; lia. }
  split; [exact Hlen|]. split.
  - rewrite Hlen. unfold fechas_validas.
    etransitivity; [apply Hle|]. unfold sel. now rewrite length_map.
  - split.
    + intros He r Hin.
      destruct (to_datetime (col_fecha sel) (hd VNaN r)) as [d|] eqn:E;
        [|reflexivity].
      exfalso.
      assert (Hd' : In d (fechas_validas sel)).
      { unfold fechas_validas. apply in_flat_map. exists r.
        split; [exact Hin|]. rewrite E. now left. }
      rewrite He in Hlen. simpl in Hlen.
      destruct (fechas_validas sel); [contradiction | discriminate].
    + intros Hnone.
      assert (Hv : fechas_validas sel = []).
      { unfold fechas_validas. now apply sin_fechas_validas. }
      rewrite Hv in Hlen. simpl in Hlen.
      now destruct (limpia_filas sel).
Qed.

End Errores.

Lemma tabla_limpia_numero_de_filas_witness :
  exists t,
    @ExcelACsv.carga_y_limpia_hoja Ejemplo.pandas
      (Ejemplo.libro hoja_sin_fechas) "IMPORTACION" = Ok t
    /\ List.length (filas t) = 0.
Proof.
  eexists. split; [reflexivity|].
  destruct (@tabla_limpia_numero_de_filas Ejemplo.pandas
              (Ejemplo.libro hoja_sin_fechas) "IMPORTACION" _ eq_refl)
    as (i & cols & Hd & Hr & Hlen & _).
  injection Hd as <-. injection Hr as <-. exact Hlen.
Defined.

(** ** The two entry points *)

Lemma startswith_app p r : startswith p (p ++ r) = true.
Proof.
  induction p as [|c p IH]; [apply startswith_vacio|].
  cbn [append]. now rewrite startswith_cons, Ascii.eqb_refl, IH.
Qed.

Section Main.

Context {pandas : Pandas}.

Lemma to_csv_empieza t :
  startswith (linea ("fecha" :: columnas t)) (to_csv t) = true.
Proof.
  unfold to_csv. rewrite join_vacio_cons. apply startswith_app.
Qed.

(** X11. When [main] of excel_a_csv succeeds it writes three files and no
    other, under the names of the script, and the first line of each is its
    header: the date and the three canonical product labels for the two
    single-sheet files, the date and the six suffixed names for the merged
    file.  [main] of the update-2025 script writes one file whose header is
    the date and the three import names. *)
Theorem main_archivos_y_encabezados (xls : ExcelFile)
  (files : list (string * string)) :
  (ExcelACsv.main xls = Ok files ->
   exists ti tc tm,
     files = [("importacion_combustibles.csv", ti);
              ("consumo_combustibles.csv", tc);
              ("Series_de_Tiempo_Combustibles.csv", tm)]
     /\ startswith
          ("fecha,gasolina regular,gasolina superior,diesel alto azufre"
           ++ nl) ti = true
     /\ startswith
          ("fecha,gasolina regular,gasolina superior,diesel alto azufre"
           ++ nl) tc = true
     /\ startswith
          ("fecha,Regular_Imp,Superior_Imp,Diesel_Imp,Regular_Con,Superior_Con,Diesel_Con"
           ++ nl) tm = true)
  /\ (Actualiza2025.main xls = Ok files ->
      exists t,
        files = [("importacion_2025_actualizado.csv", t)]
        /\ startswith ("fecha,Regular_Imp,Superior_Imp,Diesel_Imp" ++ nl) t
           = true).
Proof.
  split.
  - unfold ExcelACsv.main.
    destruct (ExcelACsv.carga_y_limpia_hoja xls "IMPORTACION")
      as [imp|] eqn:Hi; [|discriminate].
    destruct (ExcelACsv.carga_y_limpia_hoja xls "CONSUMO")
      as [con|] eqn:Hc; [|discriminate].
    cbn [bind]. intros [= <-].
    destruct (carga_y_limpia_hoja_ok _ _ _ Hi) as (? & ? & _ & _ & _ & Ei).
    destruct (carga_y_limpia_hoja_ok _ _ _ Hc) as (? & ? & _ & _ & _ & Ec).
    do 3 eexists. split; [reflexivity|].
    split; [|split].
    + rewrite Ei. exact (to_csv_empieza _).
    + rewrite Ec. exact (to_csv_empieza _).
    + rewrite Ei, Ec. exact (to_csv_empieza _).
  - unfold Actualiza2025.main.
    destruct (Actualiza2025.carga_y_limpia_importacion xls "IMPORTACION")
      as [df|] eqn:Hi; [|discriminate].
    cbn [bind]. intros [= <-].
    destruct (carga_y_limpia_importacion_ok _ _ _ Hi) as (? & _ & _ & Ei).
    eexists. split; [reflexivity|].
    rewrite Ei. exact (to_csv_empieza _).
Qed.

End Main.

Lemma main_archivos_y_encabezados_witness :
  let files := match @ExcelACsv.main Ejemplo.pandas
                       (Ejemplo.libro hoja_ejemplo) with
               | Ok f => f
               | Error _ => []
               end in
  @ExcelACsv.main Ejemplo.pandas (Ejemplo.libro hoja_ejemplo) = Ok files
  /\ map fst files = ["importacion_combustibles.csv";
                      "consumo_combustibles.csv";
                      "Series_de_Tiempo_Combustibles.csv"].
Proof.
  intros files. split; [reflexivity|].
  destruct (@main_archivos_y_encabezados Ejemplo.pandas
              (Ejemplo.libro hoja_ejemplo) files) as [H _].
  destruct (H eq_refl) as (ti & tc & tm & Hf & _).
  rewrite Hf. reflexivity.
Defined.

(** ** The text cleaning of a value, once more *)

Lemma replace_guiones_ausente s :
  contains "--" s = false -> replace_from "--" "" 0 s = s.
Proof.
  induction s as [|c s IH]; [reflexivity|].
  cbn [contains]. intros H. apply orb_false_iff in H as [Hst Hs].
  cbn [replace_from]. now rewrite Hst, (IH Hs).
Qed.

(** X13. The text cleaning changes a text exactly when it holds a comma, a
    space or two adjacent dashes: a text free of them (a plain number, a
    number with one leading minus sign) is parsed as it stands.  Cleaning a
    cleaned text changes nothing. *)
Theorem limpia_texto_puntos_fijos (s : string) :
  (limpia_texto s = s
   <-> tiene (Ascii.eqb ",") s = false
       /\ tiene (Ascii.eqb " ") s = false
       /\ contains "--" s = false)
  /\ limpia_texto (limpia_texto s) = limpia_texto s.
Proof.
  assert (Hfix : forall t,
             tiene (Ascii.eqb ",") t = false ->
             tiene (Ascii.eqb " ") t = false ->
             contains "--" t = false -> limpia_texto t = t).
  { intros t H1 H2 H3. unfold limpia_texto.
    rewrite (replace_char_ausente "," "" t H1).
    rewrite (replace_char_ausente " " "" t H2).
    now apply replace_guiones_ausente. }
  pose proof limpia_texto_sin_separadores as Hs.
  split.
  - split.
    + intros H. rewrite <- H. apply Hs.
    + intros (H1 & H2 & H3). now apply Hfix.
  - destruct (Hs s) as (H1 & H2 & H3). now apply Hfix.
Qed.

(** ** The merger and the reshaper lose nothing *)




